(** * FTX websocket client: a shallow embedding of [client.py]

    The development follows [FtxWebsocketClient]: the subscription list,
    the per-market order books with their CRC-32 verification, the bounded
    trade and fill buffers, the login handshake and the message dispatcher.

    Numbers.  Prices, sizes and timestamps are the numbers [json.loads]
    yields.  The embedding takes the integer-valued ones ([int] in Python,
    [Z] here): comparison, truthiness ([if size]) and the sign flip of the
    sort key are exact on them, and [float(n)] prints as the decimal digits
    of [n] followed by [.0] for every [|n| <= 2^53].

    Effects.  [send_json] and [Event.wait] do not return values the client
    looks at; both are recorded in the client's [_trace] in program order.
    The client is run sequentially: nothing else touches the state while a
    getter waits. *)

From Stdlib Require Import ZArith List String Ascii Lia.
From stdpp Require Import base decidable option list sorting gmap strings pretty.

Local Open Scope Z_scope.

(** ** Bytes and [zlib.crc32] *)

Module Crc32.

(** One step of the reflected CRC-32 (polynomial [0xEDB88320]) on the low
    bit of the register. *)
Definition shift1 (c : Z) : Z :=
  if Z.testbit c 0 then Z.lxor (Z.shiftr c 1) 0xEDB88320 else Z.shiftr c 1.

Definition update_byte (c b : Z) : Z :=
  let c := Z.lxor c b in
  shift1 (shift1 (shift1 (shift1 (shift1 (shift1 (shift1 (shift1 c))))))).

Definition crc32 (data : list Z) : Z :=
  Z.lxor (fold_left update_byte data 0xFFFFFFFF) 0xFFFFFFFF.

End Crc32.

(** [str.encode()] on the strings built here: all characters are ASCII, so
    the UTF-8 bytes are the character codes. *)
Definition encode (s : string) : list Z :=
  map (λ c, Z.of_N (N_of_ascii c)) (list_ascii_of_string s).

(** [sep.join(parts)] *)
Fixpoint join (sep : string) (parts : list string) : string :=
  match parts with
  | [] => ""
  | [p] => p
  | p :: rest => p +:+ sep +:+ join sep rest
  end.

(** [f'{float(n)}'] for an integer-valued [n]. *)
Definition float_str (n : Z) : string := pretty n +:+ ".0".

(** ** [hmac.new(key, msg, 'sha256').hexdigest()] *)

Module Sha256.

Definition add32 (a b : Z) : Z := (a + b) mod 2 ^ 32.
Definition rotr (n x : Z) : Z :=
  Z.lor (Z.shiftr x n) ((Z.shiftl x (32 - n)) mod 2 ^ 32).
Definition not32 (x : Z) : Z := Z.lxor x 0xFFFFFFFF.

Definition ch (x y z : Z) : Z := Z.lxor (Z.land x y) (Z.land (not32 x) z).
Definition maj (x y z : Z) : Z :=
  Z.lxor (Z.lxor (Z.land x y) (Z.land x z)) (Z.land y z).
Definition bsig0 (x : Z) : Z := Z.lxor (Z.lxor (rotr 2 x) (rotr 13 x)) (rotr 22 x).
Definition bsig1 (x : Z) : Z := Z.lxor (Z.lxor (rotr 6 x) (rotr 11 x)) (rotr 25 x).
Definition ssig0 (x : Z) : Z := Z.lxor (Z.lxor (rotr 7 x) (rotr 18 x)) (Z.shiftr x 3).
Definition ssig1 (x : Z) : Z := Z.lxor (Z.lxor (rotr 17 x) (rotr 19 x)) (Z.shiftr x 10).

(** The first 64 primes. *)
Definition primes : list Z :=
  [ 2; 3; 5; 7; 11; 13; 17; 19; 23; 29; 31; 37; 41; 43; 47; 53; 59; 61; 67; 71;
    73; 79; 83; 89; 97; 101; 103; 107; 109; 113; 127; 131; 137; 139; 149; 151;
    157; 163; 167; 173; 179; 181; 191; 193; 197; 199; 211; 223; 227; 229; 233;
    239; 241; 251; 257; 263; 269; 271; 277; 281; 283; 293; 307; 311 ].

(** The integer cube root of [n < 2^120], bit by bit from the top. *)
Definition icbrt (n : Z) : Z :=
  fold_left (λ r i, if (r + 2 ^ i) ^ 3 <=? n then r + 2 ^ i else r)
            (Z.of_nat <$> reverse (seq 0 40)) 0.

(** Round constants: the first 32 bits of the fractional parts of the cube
    roots of the primes. *)
Definition K : list Z := (λ p, icbrt (p * 2 ^ 96) mod 2 ^ 32) <$> primes.

(** Initial hash value: the same of the square roots of the first 8. *)
Definition H0 : list Z := (λ p, Z.sqrt (p * 2 ^ 64) mod 2 ^ 32) <$> take 8 primes.

(** Big-endian bytes of [x], [n] of them. *)
Fixpoint be_bytes (n : nat) (x : Z) : list Z :=
  match n with
  | O => []
  | S n' => Z.shiftr x (8 * Z.of_nat n') mod 256 :: be_bytes n' x
  end.

Definition be_word (bs : list Z) : Z := fold_left (λ acc b, acc * 256 + b) bs 0.

Definition pad (msg : list Z) : list Z :=
  let len := Z.of_nat (length msg) in
  msg ++ [0x80] ++ repeat 0 (Z.to_nat ((55 - len) mod 64)) ++ be_bytes 8 (8 * len).

Fixpoint chunks {A} (fuel size : nat) (l : list A) : list (list A) :=
  match fuel with
  | O => []
  | S fuel' =>
      match l with
      | [] => []
      | _ => take size l :: chunks fuel' size (drop size l)
      end
  end.

Definition schedule (block : list Z) : list Z :=
  fold_left
    (λ w t,
       w ++ [add32 (add32 (ssig1 (nth (t - 2) w 0)) (nth (t - 7) w 0))
                   (add32 (ssig0 (nth (t - 15) w 0)) (nth (t - 16) w 0))])
    (seq 16 48)
    (map be_word (chunks 16 4 block)).

Definition round (s : list Z) (kw : Z * Z) : list Z :=
  match s with
  | [a; b; c; d; e; f; g; h] =>
      let t1 := add32 (add32 (add32 h (bsig1 e)) (add32 (ch e f g) kw.1)) kw.2 in
      let t2 := add32 (bsig0 a) (maj a b c) in
      [add32 t1 t2; a; b; c; add32 d t1; e; f; g]
  | _ => s
  end.

Definition compress (h : list Z) (block : list Z) : list Z :=
  zip_with add32 h (fold_left round (zip K (schedule block)) h).

Definition sha256 (msg : list Z) : list Z :=
  let padded := pad msg in
  mjoin (be_bytes 4 <$>
    fold_left compress (chunks (length padded) 64 padded) H0).

Definition hmac (key msg : list Z) : list Z :=
  let key := if decide (64 < length key)%nat then sha256 key else key in
  let key := key ++ repeat 0 (64 - length key)%nat in
  sha256 (map (Z.lxor 0x5c) key ++ sha256 (map (Z.lxor 0x36) key ++ msg)).

Definition hex_digit (d : Z) : string :=
  String (nth (Z.to_nat d) (list_ascii_of_string "0123456789abcdef") "0"%char) "".

Definition hexdigest (bs : list Z) : string :=
  fold_right (λ b acc, hex_digit (b / 16) +:+ hex_digit (b mod 16) +:+ acc) "" bs.

End Sha256.

(** ** Data model *)

(** A subscription is the dict [{'channel': c, 'market': m}] or
    [{'channel': c}]; Python compares dicts structurally, whatever the order
    the keys were written in. *)
Record subscription := Subscription {
  channel : string;
  market : option string
}.

#[global] Instance subscription_eq_dec : EqDecision subscription.
Proof. solve_decision. Defined.

Inductive frame :=
  | LoginFrame (key sign : string) (time : Z)
  | SubscribeFrame (sub : subscription)
  | UnsubscribeFrame (sub : subscription).

#[global] Instance frame_eq_dec : EqDecision frame.
Proof. solve_decision. Defined.

(** What the client does to the outside, in program order. *)
Inductive effect :=
  | Sent (f : frame)
  | Waited (market : string) (timeout : Z)
  | Reconnect.

#[global] Instance effect_eq_dec : EqDecision effect.
Proof. solve_decision. Defined.

Inductive side := Bids | Asks.

(** [message['data']] of an orderbook message. *)
Record orderbook_data := OrderbookData {
  action : string;
  bids : list (Z * Z);
  asks : list (Z * Z);
  time : Z;
  checksum : Z
}.

Definition data_side (s : side) (data : orderbook_data) : list (Z * Z) :=
  match s with Bids => bids data | Asks => asks data end.

(** A payload: an orderbook record, an object with an [id], or anything
    else (kept verbatim). *)
Inductive payload :=
  | BookPayload (data : orderbook_data)
  | OrderPayload (id : Z) (body : string)
  | OtherPayload (body : string).

(** A decoded inbound frame; a key the frame lacks is [None]. *)
Record message := Message {
  msg_type : option string;
  msg_code : option Z;
  msg_channel : option string;
  msg_market : option string;
  msg_data : option payload
}.

Inductive exn :=
  | KeyError
  | TypeError
  | ServerError (m : message).

Inductive result (A : Type) :=
  | Ok (a : A)
  | Raise (e : exn).
Arguments Ok {A} a.
Arguments Raise {A} e.

#[global] Instance result_ret : MRet result := λ A a, Ok a.
#[global] Instance result_bind : MBind result := λ A B k r,
  match r with
  | Ok a => k a
  | Raise e => Raise e
  end.

(** One market's book: [{side: defaultdict(float) for side in {'bids', 'asks'}}] *)
Record book := Book {
  book_bids : gmap Z Z;
  book_asks : gmap Z Z
}.

Definition empty_book : book := Book ∅ ∅.

Definition book_side (s : side) (b : book) : gmap Z Z :=
  match s with Bids => book_bids b | Asks => book_asks b end.

Definition set_book_side (s : side) (levels : gmap Z Z) (b : book) : book :=
  match s with
  | Bids => Book levels (book_asks b)
  | Asks => Book (book_bids b) levels
  end.

Record client := Client {
  _trades : gmap string (list payload);
  _fills : list payload;
  _api_key : string;
  _api_secret : string;
  _orderbook_update_events : gmap string bool;
  _subscriptions : list subscription;
  _orders : gmap Z payload;
  _tickers : gmap string payload;
  _orderbook_timestamps : gmap string Z;
  _orderbooks : gmap string book;
  _logged_in : bool;
  _last_received_orderbook_data_at : Z;
  _trace : list effect
}.

(** Assignment to one attribute of the client. *)
Section setters.
Context (c : client).

Definition set_trades v : client :=
  Client v (_fills c) (_api_key c) (_api_secret c)
        (_orderbook_update_events c) (_subscriptions c) (_orders c)
        (_tickers c) (_orderbook_timestamps c) (_orderbooks c) (_logged_in c)
        (_last_received_orderbook_data_at c) (_trace c).
Definition set_fills v : client :=
  Client (_trades c) v (_api_key c) (_api_secret c)
        (_orderbook_update_events c) (_subscriptions c) (_orders c)
        (_tickers c) (_orderbook_timestamps c) (_orderbooks c) (_logged_in c)
        (_last_received_orderbook_data_at c) (_trace c).
Definition set_events v : client :=
  Client (_trades c) (_fills c) (_api_key c) (_api_secret c) v
        (_subscriptions c) (_orders c) (_tickers c) (_orderbook_timestamps c)
        (_orderbooks c) (_logged_in c) (_last_received_orderbook_data_at c)
        (_trace c).
Definition set_subscriptions v : client :=
  Client (_trades c) (_fills c) (_api_key c) (_api_secret c)
        (_orderbook_update_events c) v (_orders c) (_tickers c)
        (_orderbook_timestamps c) (_orderbooks c) (_logged_in c)
        (_last_received_orderbook_data_at c) (_trace c).
Definition set_orders v : client :=
  Client (_trades c) (_fills c) (_api_key c) (_api_secret c)
        (_orderbook_update_events c) (_subscriptions c) v (_tickers c)
        (_orderbook_timestamps c) (_orderbooks c) (_logged_in c)
        (_last_received_orderbook_data_at c) (_trace c).
Definition set_tickers v : client :=
  Client (_trades c) (_fills c) (_api_key c) (_api_secret c)
        (_orderbook_update_events c) (_subscriptions c) (_orders c) v
        (_orderbook_timestamps c) (_orderbooks c) (_logged_in c)
        (_last_received_orderbook_data_at c) (_trace c).
Definition set_timestamps v : client :=
  Client (_trades c) (_fills c) (_api_key c) (_api_secret c)
        (_orderbook_update_events c) (_subscriptions c) (_orders c)
        (_tickers c) v (_orderbooks c) (_logged_in c)
        (_last_received_orderbook_data_at c) (_trace c).
Definition set_orderbooks v : client :=
  Client (_trades c) (_fills c) (_api_key c) (_api_secret c)
        (_orderbook_update_events c) (_subscriptions c) (_orders c)
        (_tickers c) (_orderbook_timestamps c) v (_logged_in c)
        (_last_received_orderbook_data_at c) (_trace c).
Definition set_logged_in v : client :=
  Client (_trades c) (_fills c) (_api_key c) (_api_secret c)
        (_orderbook_update_events c) (_subscriptions c) (_orders c)
        (_tickers c) (_orderbook_timestamps c) (_orderbooks c) v
        (_last_received_orderbook_data_at c) (_trace c).
Definition set_last_received v : client :=
  Client (_trades c) (_fills c) (_api_key c) (_api_secret c)
        (_orderbook_update_events c) (_subscriptions c) (_orders c)
        (_tickers c) (_orderbook_timestamps c) (_orderbooks c) (_logged_in c)
        v (_trace c).
Definition set_trace v : client :=
  Client (_trades c) (_fills c) (_api_key c) (_api_secret c)
        (_orderbook_update_events c) (_subscriptions c) (_orders c)
        (_tickers c) (_orderbook_timestamps c) (_orderbooks c) (_logged_in c)
        (_last_received_orderbook_data_at c) v.

End setters.

(** ** Containers of the standard library *)

(** [deque([], maxlen=10000).append(x)]: a full deque drops its leftmost
    item to make room. *)
Definition maxlen : nat := Z.to_nat 10000.

Definition deque_append {A} (d : list A) (x : A) : list A :=
  if decide (length d < maxlen)%nat then d ++ [x] else drop 1 d ++ [x].

(** [l.remove(x)]: the first occurrence goes. *)
Fixpoint list_remove {A} `{EqDecision A} (x : A) (l : list A) : list A :=
  match l with
  | [] => []
  | y :: l' => if decide (y = x) then l' else y :: list_remove x l'
  end.

(** [while x in l: l.remove(x)], run for at most [fuel] turns. *)
Fixpoint remove_while {A} `{EqDecision A} (fuel : nat) (x : A) (l : list A) : list A :=
  match fuel with
  | O => l
  | S fuel' =>
      if decide (x ∈ l) then remove_while fuel' x (list_remove x l) else l
  end.

(** [itertools.zip_longest(l1, l2)] *)
Fixpoint zip_longest {A B} (l1 : list A) (l2 : list B) : list (option A * option B) :=
  match l1 with
  | [] => map (λ y, (None, Some y)) l2
  | x :: l1' =>
      match l2 with
      | [] => (Some x, None) :: zip_longest l1' []
      | y :: l2' => (Some x, Some y) :: zip_longest l1' l2'
      end
  end.

(** [sorted(l, key=key)]: ascending in [key]. *)
Definition key_le {A} (key : A → Z) : relation A := λ x y, key x ≤ key y.

#[global] Instance key_le_dec {A} (key : A → Z) : RelDecision (key_le key).
Proof. intros x y. unfold key_le. apply _. Defined.

Definition sorted {A} (key : A → Z) (l : list A) : list A :=
  merge_sort (key_le key) l.

(** ** [FtxWebsocketClient] *)

(** Modelled from the spec: [WebsocketManager.send_json] and
    [WebsocketManager.reconnect] are not among the sources.  Section 6 of
    the specification makes an outbound frame a text message written to the
    connection, and section 4.1 makes a reconnect a teardown followed by a
    new connection; both are recorded in [_trace] and leave the rest of the
    client alone (the manager calls [_on_open] once the new connection is
    up). *)
Definition send_json (f : frame) (c : client) : client :=
  set_trace c (_trace c ++ [Sent f]).

Definition reconnect (c : client) : client :=
  set_trace c (_trace c ++ [Reconnect]).

(** [Event.wait(timeout)] on [self._orderbook_update_events[market]]; the
    [defaultdict] creates the event on first use. *)
Definition event_wait (market : string) (timeout : Z) (c : client) : client :=
  let events := _orderbook_update_events c in
  let c := set_events c (<[market := default false (events !! market)]> events) in
  set_trace c (_trace c ++ [Waited market timeout]).

(** [.set()] then [.clear()] on the market's event. *)
Definition event_pulse (market : string) (c : client) : client :=
  set_events c (<[market := false]> (_orderbook_update_events c)).

Definition _reset_data (c : client) : client :=
  {| _trades := _trades c;
     _fills := _fills c;
     _api_key := _api_key c;
     _api_secret := _api_secret c;
     _orderbook_update_events := ∅;
     _subscriptions := [];
     _orders := ∅;
     _tickers := ∅;
     _orderbook_timestamps := ∅;
     _orderbooks := ∅;
     _logged_in := false;
     _last_received_orderbook_data_at := 0;
     _trace := _trace c |}.

(** [__init__], with the credentials the constructor hard-codes taken as
    arguments. *)
Definition init (api_key api_secret : string) : client :=
  _reset_data
    {| _trades := ∅;
       _fills := [];
       _api_key := api_key;
       _api_secret := api_secret;
       _orderbook_update_events := ∅;
       _subscriptions := [];
       _orders := ∅;
       _tickers := ∅;
       _orderbook_timestamps := ∅;
       _orderbooks := ∅;
       _logged_in := false;
       _last_received_orderbook_data_at := 0;
       _trace := [] |}.

Definition _on_open (c : client) : client := _reset_data c.

Definition _reset_orderbook (market : string) (c : client) : client :=
  let c := set_orderbooks c (delete market (_orderbooks c)) in
  set_timestamps c (delete market (_orderbook_timestamps c)).

(** The [sign] field of the login frame. *)
Definition login_signature (api_secret : string) (ts : Z) : string :=
  Sha256.hexdigest
    (Sha256.hmac (encode api_secret) (encode (pretty ts +:+ "websocket_login"))).

(** [ts] is [int(time.time() * 1000)], read from the clock by the caller. *)
Definition _login (ts : Z) (c : client) : client :=
  let c := send_json (LoginFrame (_api_key c) (login_signature (_api_secret c) ts) ts) c in
  set_logged_in c true.

Definition _subscribe (sub : subscription) (c : client) : client :=
  let c := send_json (SubscribeFrame sub) c in
  set_subscriptions c (_subscriptions c ++ [sub]).

Definition _unsubscribe (sub : subscription) (c : client) : client :=
  let c := send_json (UnsubscribeFrame sub) c in
  let subs := _subscriptions c in
  set_subscriptions c (remove_while (length subs) sub subs).

(** [if subscription not in self._subscriptions: self._subscribe(subscription)] *)
Definition subscribe_if_absent (sub : subscription) (c : client) : client :=
  if decide (sub ∈ _subscriptions c) then c else _subscribe sub c.

Definition get_fills (ts : Z) (c : client) : client * list payload :=
  let c := if _logged_in c then c else _login ts c in
  let c := subscribe_if_absent (Subscription "fills" None) c in
  (c, _fills c).

Definition get_orders (ts : Z) (c : client) : client * gmap Z payload :=
  let c := if _logged_in c then c else _login ts c in
  let c := subscribe_if_absent (Subscription "orders" None) c in
  (c, _orders c).

Definition get_trades (market : string) (c : client) : client * list payload :=
  let c := subscribe_if_absent (Subscription "trades" (Some market)) c in
  let d := default [] (_trades c !! market) in
  (set_trades c (<[market := d]> (_trades c)), d).

Definition wait_for_orderbook_update (market : string) (timeout : Z) (c : client) : client :=
  let c := subscribe_if_absent (Subscription "orderbook" (Some market)) c in
  event_wait market timeout c.

(** [order[0] * (-1 if side == 'bids' else 1)] *)
Definition sort_key (s : side) (order : Z * Z) : Z :=
  order.1 * (match s with Bids => -1 | Asks => 1 end).

(** [sorted([(price, quantity) for ... in book.items() if quantity], key=...)] *)
Definition side_levels (s : side) (b : book) : list (Z * Z) :=
  sorted (sort_key s)
    (filter (λ order, order.2 ≠ 0) (map_to_list (book_side s b))).

Definition get_orderbook (market : string) (c : client)
  : client * (side → list (Z * Z)) :=
  let c := subscribe_if_absent (Subscription "orderbook" (Some market)) c in
  let ts := default 0 (_orderbook_timestamps c !! market) in
  let c := set_timestamps c (<[market := ts]> (_orderbook_timestamps c)) in
  let c := if decide (ts = 0) then wait_for_orderbook_update market 5 c else c in
  let b := default empty_book (_orderbooks c !! market) in
  let c := set_orderbooks c (<[market := b]> (_orderbooks c)) in
  (c, λ s, side_levels s b).

Definition get_orderbook_timestamp (market : string) (c : client) : client * Z :=
  let ts := default 0 (_orderbook_timestamps c !! market) in
  (set_timestamps c (<[market := ts]> (_orderbook_timestamps c)), ts).

Definition get_ticker (market : string) (c : client) : client * payload :=
  let c := subscribe_if_absent (Subscription "ticker" (Some market)) c in
  let t := default (OtherPayload "{}") (_tickers c !! market) in
  (set_tickers c (<[market := t]> (_tickers c)), t).

(** The inner loop of [_handle_orderbook_message] on one side's levels:
    [book[price] = size] for a size that is truthy, [del book[price]]
    otherwise, which raises [KeyError] when the price is not a key. *)
Fixpoint apply_levels (levels : list (Z * Z)) (b : gmap Z Z) : result (gmap Z Z) :=
  match levels with
  | [] => Ok b
  | (price, size) :: rest =>
      if decide (size ≠ 0) then apply_levels rest (<[price := size]> b)
      else
        match b !! price with
        | Some _ => apply_levels rest (delete price b)
        | None => Raise KeyError
        end
  end.

(** One turn of [for side in {'bids', 'asks'}]. *)
Definition apply_side (market : string) (data : orderbook_data) (s : side)
    (c : client) : result client :=
  let b := default empty_book (_orderbooks c !! market) in
  levels ← apply_levels (data_side s data) (book_side s b);
  let c := set_orderbooks c (<[market := set_book_side s levels b]> (_orderbooks c)) in
  Ok (set_timestamps c (<[market := time data]> (_orderbook_timestamps c))).

Definition level_str (order : Z * Z) : string :=
  float_str order.1 +:+ ":" +:+ float_str order.2.

Definition checksum_data (orderbook : side → list (Z * Z)) : list string :=
  map (λ '(bid, offer), join ":" (map level_str (omap id [bid; offer])))
      (zip_longest (take 100 (orderbook Bids)) (take 100 (orderbook Asks))).

Definition computed_result (orderbook : side → list (Z * Z)) : Z :=
  Crc32.crc32 (encode (join ":" (checksum_data orderbook))).

(** The part of [_handle_orderbook_message] before the checksum: the reset
    on a snapshot and the two sides. A set of two strings is walked in an
    order Python does not fix; the two sides write to different maps and
    store the same timestamp, so either order gives the same client, and
    an exception in either side is an exception of the whole. *)
Definition apply_orderbook_data (market : string) (data : orderbook_data)
    (c : client) : result client :=
  let c := if decide (action data = "partial") then _reset_orderbook market c else c in
  c ← apply_side market data Bids c;
  apply_side market data Asks c.

Definition orderbook_sub (market : string) : subscription :=
  Subscription "orderbook" (Some market).

Definition on_mismatch (market : string) (c : client) : client :=
  let c := set_last_received c 0 in
  let c := _reset_orderbook market c in
  let c := _unsubscribe (orderbook_sub market) c in
  _subscribe (orderbook_sub market) c.

Definition verify_checksum (market : string) (data : orderbook_data)
    (c : client) : client :=
  let '(c, orderbook) := get_orderbook market c in
  if decide (computed_result orderbook ≠ checksum data)
  then on_mismatch market c
  else event_pulse market c.

Definition _handle_orderbook_message (message : message) (c : client) : result client :=
  match msg_market message, msg_data message with
  | Some market, Some (BookPayload data) =>
      c ← apply_orderbook_data market data c;
      Ok (verify_checksum market data c)
  | Some _, Some _ => Raise TypeError
  | _, _ => Raise KeyError
  end.

Definition _handle_trades_message (message : message) (c : client) : result client :=
  match msg_market message, msg_data message with
  | Some market, Some data =>
      let d := default [] (_trades c !! market) in
      Ok (set_trades c (<[market := deque_append d data]> (_trades c)))
  | _, _ => Raise KeyError
  end.

Definition _handle_ticker_message (message : message) (c : client) : result client :=
  match msg_market message, msg_data message with
  | Some market, Some data => Ok (set_tickers c (<[market := data]> (_tickers c)))
  | _, _ => Raise KeyError
  end.

Definition _handle_fills_message (message : message) (c : client) : result client :=
  match msg_data message with
  | Some data => Ok (set_fills c (deque_append (_fills c) data))
  | None => Raise KeyError
  end.

Definition _handle_orders_message (message : message) (c : client) : result client :=
  match msg_data message with
  | Some (OrderPayload id body) =>
      Ok (set_orders c (<[id := OrderPayload id body]> (_orders c)))
  | Some (BookPayload _) => Raise KeyError
  | Some (OtherPayload _) => Raise TypeError
  | None => Raise KeyError
  end.

Definition dispatch_channel (message : message) (c : client) : result client :=
  match msg_channel message with
  | None => Raise KeyError
  | Some channel =>
      if decide (channel = "orderbook") then _handle_orderbook_message message c
      else if decide (channel = "trades") then _handle_trades_message message c
      else if decide (channel = "ticker") then _handle_ticker_message message c
      else if decide (channel = "fills") then _handle_fills_message message c
      else if decide (channel = "orders") then _handle_orders_message message c
      else Ok c
  end.

Definition _on_message (message : message) (c : client) : result client :=
  match msg_type message with
  | None => Raise KeyError
  | Some message_type =>
      if decide (message_type = "subscribed" ∨ message_type = "unsubscribed")
      then Ok c
      else if decide (message_type = "info") then
        match msg_code message with
        | None => Raise KeyError
        | Some code =>
            if decide (code = 20001) then Ok (reconnect c)
            else dispatch_channel message c
        end
      else if decide (message_type = "error") then Raise (ServerError message)
      else dispatch_channel message c
  end.

(** ** The reader loop and the callers *)

(** Messages handled in arrival order; an exception ends the run. *)
Fixpoint run (messages : list message) (c : client) : result client :=
  match messages with
  | [] => Ok c
  | m :: rest => c ← _on_message m c; run rest c
  end.

Definition trades_message (market : string) (data : payload) : message :=
  Message (Some "update") None (Some "trades") (Some market) (Some data).

Definition orderbook_message (market : string) (data : orderbook_data) : message :=
  Message (Some (action data)) None (Some "orderbook") (Some market)
          (Some (BookPayload data)).



(** The read-side operations of the public interface. *)
Inductive read_op :=
  | GetFills
  | GetOrders
  | GetTrades (market : string)
  | GetOrderbook (market : string)
  | GetTicker (market : string)
  | WaitForOrderbookUpdate (market : string) (timeout : Z).

Definition op_subscription (op : read_op) : subscription :=
  match op with
  | GetFills => Subscription "fills" None
  | GetOrders => Subscription "orders" None
  | GetTrades market => Subscription "trades" (Some market)
  | GetOrderbook market => Subscription "orderbook" (Some market)
  | GetTicker market => Subscription "ticker" (Some market)
  | WaitForOrderbookUpdate market _ => Subscription "orderbook" (Some market)
  end.

(** The client after a call of [op] at clock reading [ts]. *)
Definition call (ts : Z) (op : read_op) (c : client) : client :=
  match op with
  | GetFills => (get_fills ts c).1
  | GetOrders => (get_orders ts c).1
  | GetTrades market => (get_trades market c).1
  | GetOrderbook market => (get_orderbook market c).1
  | GetTicker market => (get_ticker market c).1
  | WaitForOrderbookUpdate market timeout => wait_for_orderbook_update market timeout c
  end.

(** The subscribe frames of a trace, in the order they were sent. *)
Definition subscribe_frames (tr : list effect) : list subscription :=
  omap (λ e, match e with Sent (SubscribeFrame sub) => Some sub | _ => None end) tr.

(** ** The specification's wording, for comparison *)

(** Section 4.3: [levels] is one side of [b] as the checksum protocol and
    the read see it, best price first. *)
Definition better (s : side) (x y : Z * Z) : Prop :=
  match s with Bids => y.1 < x.1 | Asks => x.1 < y.1 end.

Definition is_side_of (s : side) (b : book) (levels : list (Z * Z)) : Prop :=
  StronglySorted (better s) levels ∧
  ∀ price size, (price, size) ∈ levels ↔ book_side s b !! price = Some size ∧ size ≠ 0.

(** Section 4.3: a present level is ["price:size"]; at each rank the bid
    and the ask are joined with [:]. *)
Definition spec_rank_string (bid ask : option (Z * Z)) : string :=
  match bid, ask with
  | Some b, Some a => level_str b +:+ ":" +:+ level_str a
  | Some b, None => level_str b
  | None, Some a => level_str a
  | None, None => ""
  end.

(** Section 4.3: the rank strings of the top 100 levels, joined with [:].
    The ranks are those at which a side has a level. *)
Definition spec_checksum_string (bids asks : list (Z * Z)) : string :=
  let bids := take 100 bids in
  let asks := take 100 asks in
  join ":" (map (λ i, spec_rank_string (bids !! i) (asks !! i))
                (seq 0 (length bids `max` length asks))).

(** Every buffer of trades is within the deque's capacity. *)
Definition trades_bounded (c : client) : Prop :=
  ∀ market buf, _trades c !! market = Some buf → (length buf ≤ maxlen)%nat.



(** What one guarded subscription adds to the list and to the wire. *)
Definition added (sub : subscription) (c : client) : list subscription :=
  if decide (sub ∈ _subscriptions c) then [] else [sub].

Definition fills_message (data : payload) : message :=
  Message (Some "update") None (Some "fills") None (Some data).

Definition ticker_message (market : string) (data : payload) : message :=
  Message (Some "update") None (Some "ticker") (Some market) (Some data).

Definition orders_message (id : Z) (body : string) : message :=
  Message (Some "update") None (Some "orders") None (Some (OrderPayload id body)).

Definition error_message : message :=
  Message (Some "error") (Some 400) None None None.

(** ** Sample inputs *)

(** [n] distinct trade payloads, numbered in arrival order. *)
Definition numbered_trades (n : Z) : list payload :=
  (λ i : nat, OtherPayload (pretty i)) <$> seq 0 (Z.to_nat n).

(** The scenario of section 8: a snapshot and a diff that removes the best
    bid, each with the checksum of the book it leaves. *)
Definition scenario_partial : orderbook_data :=
  OrderbookData "partial" [(100, 1); (99, 2)] [(101, 1)] 1 483019333.

Definition scenario_update : orderbook_data :=
  OrderbookData "update" [(100, 0)] [] 2 1311374525.

(** A diff that removes a price the book does not hold. *)
Definition update_absent_price : orderbook_data :=
  OrderbookData "update" [(100, 0)] [] 1 0.


(** A snapshot whose checksum field is not the CRC-32 of its book. *)
Definition partial_bad_checksum : orderbook_data :=
  OrderbookData "partial" [(100, 1)] [] 1 0.

(** An info message without the reconnect code, as the server sends it:
    no channel. *)
Definition info_message (code : Z) : message :=
  Message (Some "info") (Some code) None None None.



(** ** Everything that happens to a client *)

(** The three ways the client's state changes: the reader loop hands a
    message to [_on_message], a consumer calls a read operation, or the
    manager reports a new connection to [_on_open]. *)
Inductive input :=
  | Inbound (m : message)
  | Called (ts : Z) (op : read_op)
  | Opened.

Definition step (i : input) (c : client) : result client :=
  match i with
  | Inbound m => _on_message m c
  | Called ts op => Ok (call ts op c)
  | Opened => Ok (_on_open c)
  end.

Fixpoint steps (inputs : list input) (c : client) : result client :=
  match inputs with
  | [] => Ok c
  | i :: rest => c ← step i c; steps rest c
  end.


(** No update event is left set. *)
Definition events_clear (c : client) : Prop :=
  ∀ market flag, _orderbook_update_events c !! market = Some flag → flag = false.

(** No book holds a size of 0. *)
Definition books_nonzero (c : client) : Prop :=
  ∀ market b s price size,
    _orderbooks c !! market = Some b → book_side s b !! price = Some size → size ≠ 0.

(** The login frames of a trace, by timestamp. *)
Definition login_frames (tr : list effect) : list Z :=
  omap (λ e, match e with Sent (LoginFrame _ _ ts) => Some ts | _ => None end) tr.

(** The unsubscribe frames of a trace. *)
Definition unsubscribe_frames (tr : list effect) : list subscription :=
  omap (λ e, match e with Sent (UnsubscribeFrame sub) => Some sub | _ => None end) tr.

(** A session with reads, a snapshot that fails its checksum, the
    scenario of section 8 and a reconnection in between. *)
Definition sample_session : list input :=
  [ Called 1 (GetOrderbook "BTC-PERP");
    Called 2 GetFills;
    Inbound (orderbook_message "BTC-PERP" partial_bad_checksum);
    Inbound (orderbook_message "BTC-PERP" scenario_partial);
    Called 3 (GetOrderbook "BTC-PERP");
    Opened;
    Called 4 GetOrders;
    Inbound (orderbook_message "BTC-PERP" scenario_partial);
    Inbound (orderbook_message "BTC-PERP" scenario_update);
    Called 5 (WaitForOrderbookUpdate "BTC-PERP" 1) ].

(** The size the last level of [levels] at [price] carries, if there is
    one. *)
Fixpoint last_size (price : Z) (levels : list (Z * Z)) : option Z :=
  match levels with
  | [] => None
  | (p, q) :: rest =>
      match last_size price rest with
      | Some size => Some size
      | None => if decide (p = price) then Some q else None
      end
  end.

(** [c'] differs from [c] at most in what belongs to [market]: its book,
    timestamp and update event, and in the connection-wide subscription
    list, trace and last-data-received marker. *)
Definition same_off_market (market : string) (c c' : client) : Prop :=
  (∀ other, other ≠ market →
     _orderbooks c' !! other = _orderbooks c !! other ∧
     _orderbook_timestamps c' !! other = _orderbook_timestamps c !! other ∧
     _orderbook_update_events c' !! other = _orderbook_update_events c !! other) ∧
  _trades c' = _trades c ∧
  _fills c' = _fills c ∧
  _tickers c' = _tickers c ∧
  _orders c' = _orders c ∧
  _logged_in c' = _logged_in c ∧
  _api_key c' = _api_key c ∧
  _api_secret c' = _api_secret c.

(** A diff for a second market, with the checksum of its book. *)
Definition eth_partial : orderbook_data :=
  OrderbookData "partial" [(10, 3)] [(11, 4)] 5 1535834193.

(** What one step does about logging in: nothing, or, for a private getter
    on a client that is not logged in, one login frame and the flag. *)
Definition login_step (ts : list Z) (c c' : client) : Prop :=
  (ts = [] ∧ _logged_in c' = _logged_in c) ∨
  (∃ t, ts = [t] ∧ _logged_in c = false ∧ _logged_in c' = true).

(** Two private getters around a snapshot, on one connection. *)
Definition private_session : list input :=
  [ Called 2 GetFills;
    Inbound (orderbook_message "BTC-PERP" scenario_partial);
    Called 4 GetOrders;
    Called 6 GetFills ].

(** ** [FtxClient], the REST client *)

(** A JSON document, as [response.json()] returns it and as the [json=]
    and [params=] arguments carry it. A dict is its list of items; its keys
    are distinct. *)
#[local] Unset Elimination Schemes.
Inductive json :=
  | JNull
  | JBool (b : bool)
  | JNum (n : Z)
  | JStr (s : string)
  | JList (l : list json)
  | JDict (d : list (string * json)).
#[local] Set Elimination Schemes.

(** [d[key]] on the items of a dict. *)
Fixpoint assoc (key : string) (d : list (string * json)) : option json :=
  match d with
  | [] => None
  | (k, v) :: rest => if decide (k = key) then Some v else assoc key rest
  end.

(** Truth value of a document, as [not x] and [if x] take it. *)
Definition truthy (v : json) : bool :=
  match v with
  | JNull => false
  | JBool b => b
  | JNum n => bool_decide (n ≠ 0)
  | JStr s => bool_decide (s ≠ "")
  | JList l => bool_decide (l ≠ [])
  | JDict d => bool_decide (d ≠ [])
  end.

(** An optional number as a dict value: [None] stays [None]. *)
Definition opt_num (x : option Z) : json :=
  match x with Some n => JNum n | None => JNull end.

Inductive rest_exn :=
  | AssertionError (msg : string)
  | AttributeError
  | RestKeyError (key : string)
  | RestTypeError
  | ValueError
  | HTTPError (status : Z)
  | ApiError (error : json).

Inductive rest_result (A : Type) :=
  | Returns (a : A)
  | Raises (e : rest_exn).
Arguments Returns {A} a.
Arguments Raises {A} e.

#[global] Instance rest_result_bind : MBind rest_result := λ A B k r,
  match r with
  | Returns a => k a
  | Raises e => Raises e
  end.

(** [assert cond, msg] *)
Definition py_assert (cond : bool) (msg : string) : rest_result unit :=
  if cond then Returns () else Raises (AssertionError msg).

(** [needle in hay] on two strings: [needle] occurs in [hay]. *)
Fixpoint str_in (needle hay : string) : bool :=
  String.prefix needle hay ||
  match hay with
  | EmptyString => false
  | String _ rest => str_in needle rest
  end.

(** [x[key]] with a string key on a document. *)
Definition subscript (x : json) (key : string) : rest_result json :=
  match x with
  | JDict d =>
      match assoc key d with
      | Some v => Returns v
      | None => Raises (RestKeyError key)
      end
  | _ => Raises RestTypeError
  end.

(** The items a [for] loop over a document visits. *)
Definition iterate (x : json) : rest_result (list json) :=
  match x with
  | JList l => Returns l
  | JDict d => Returns ((λ item, JStr item.1) <$> d)
  | JStr s => Returns ((λ ch, JStr (String ch EmptyString)) <$> list_ascii_of_string s)
  | _ => Raises RestTypeError
  end.

(** [urllib.parse.quote(s)]: the bytes of [s] other than letters, digits
    and [_.-~/] become [%XX]. *)
Definition quote_safe (ch : ascii) : bool :=
  let n := Z.of_N (N_of_ascii ch) in
  bool_decide (65 ≤ n ≤ 90 ∨ 97 ≤ n ≤ 122 ∨ 48 ≤ n ≤ 57 ∨
               n = 95 ∨ n = 46 ∨ n = 45 ∨ n = 126 ∨ n = 47).

Definition upper_hex_digit (d : Z) : ascii :=
  nth (Z.to_nat d) (list_ascii_of_string "0123456789ABCDEF") "0"%char.

Fixpoint quote (s : string) : string :=
  match s with
  | EmptyString => EmptyString
  | String ch rest =>
      if quote_safe ch then String ch (quote rest)
      else
        let n := Z.of_N (N_of_ascii ch) in
        String "%"%char
          (String (upper_hex_digit (n / 16))
             (String (upper_hex_digit (n mod 16)) (quote rest)))
  end.

(** [requests.Request]: what [_request] builds and [_sign_request] adds
    headers to. *)
Record request := Request {
  method : string;
  url : string;
  params : option (list (string * json));
  json_body : option (list (string * json));
  headers : list (string * option string)
}.

(** The fields of [request.prepare()] that [_sign_request] reads. *)
Record prepared := Prepared {
  prepared_method : string;
  path_url : string;
  body : option (list Z)
}.

(** [requests.Response]: the status and the document of the body, [None]
    when the body is not JSON. *)
Record response := Response {
  status_code : Z;
  json_doc : option json
}.

Record rest_client := RestClient {
  rest_api_key : option string;
  rest_api_secret : option string;
  rest_subaccount_name : option string;
  rest_sent : list request
}.

Definition _ENDPOINT : string := "https://ftx.com/api/".

(** [response.raise_for_status()] *)
Definition raise_for_status (r : response) : rest_result unit :=
  if decide (400 ≤ status_code r < 600) then Raises (HTTPError (status_code r))
  else Returns ().

Definition _process_response (r : response) : rest_result json :=
  match json_doc r with
  | None => _ ← raise_for_status r; Raises ValueError
  | Some data =>
      success ← subscript data "success";
      if truthy success then subscript data "result"
      else error ← subscript data "error"; Raises (ApiError error)
  end.

(** [next(filter(lambda x: x['future'] == name, positions), None)]: the
    items are inspected one by one, up to the first that matches. *)
Fixpoint first_position (name : string) (positions : list json)
  : rest_result (option json) :=
  match positions with
  | [] => Returns None
  | x :: rest =>
      future ← subscript x "future";
      match future with
      | JStr s => if decide (s = name) then Returns (Some x) else first_position name rest
      | _ => first_position name rest
      end
  end.

Section rest.

(** [requests] and the server are not part of the client: [prepare] is
    [Request.prepare], [server] is what [Session.send] comes back with. *)
Context (prepare : request → prepared) (server : request → response).

(** [ts] is [int(time.time() * 1000)]. *)
Definition _sign_request (ts : Z) (req : request) (cl : rest_client)
  : rest_result request :=
  let p := prepare req in
  let signature_payload :=
    encode (pretty ts +:+ prepared_method p +:+ path_url p) ++
    match body p with
    | Some b => b
    | None => []
    end in
  match rest_api_secret cl with
  | None => Raises AttributeError
  | Some secret =>
      let signature := Sha256.hexdigest (Sha256.hmac (encode secret) signature_payload) in
      Returns
        (Request (method req) (url req) (params req) (json_body req)
           (headers req ++
            [("FTX-KEY", rest_api_key cl);
             ("FTX-SIGN", Some signature);
             ("FTX-TS", Some (pretty ts))] ++
            match rest_subaccount_name cl with
            | Some name =>
                if decide (name ≠ "") then [("FTX-SUBACCOUNT", Some (quote name))]
                else []
            | None => []
            end))
  end.

Definition _request (ts : Z) (method path : string)
    (params json_body : option (list (string * json))) (cl : rest_client)
  : rest_client * rest_result json :=
  let req := Request method (_ENDPOINT +:+ path) params json_body [] in
  match _sign_request ts req cl with
  | Raises e => (cl, Raises e)
  | Returns signed =>
      (RestClient (rest_api_key cl) (rest_api_secret cl) (rest_subaccount_name cl)
                  (rest_sent cl ++ [signed]),
       _process_response (server signed))
  end.

Definition _get (ts : Z) (path : string) (params : option (list (string * json)))
    (cl : rest_client) : rest_client * rest_result json :=
  _request ts "GET" path params None cl.

Definition _post (ts : Z) (path : string) (params : option (list (string * json)))
    (cl : rest_client) : rest_client * rest_result json :=
  _request ts "POST" path None params cl.

Definition _delete (ts : Z) (path : string) (params : option (list (string * json)))
    (cl : rest_client) : rest_client * rest_result json :=
  _request ts "DELETE" path None params cl.

Definition modify_order (ts : Z)
    (existing_order_id existing_client_order_id : option string)
    (price size : option Z) (client_order_id : option string) (cl : rest_client)
  : rest_client * rest_result json :=
  match
    _ ← py_assert (xorb (bool_decide (existing_order_id = None))
                        (bool_decide (existing_client_order_id = None)))
                  "Must supply exactly one ID for the order to modify";
    py_assert (bool_decide (price = None) || bool_decide (size = None))
              "Must modify price or size of order"
  with
  | Raises e => (cl, Raises e)
  | Returns _ =>
      let path :=
        match existing_order_id with
        | Some id => "orders/" +:+ id +:+ "/modify"
        | None =>
            "orders/by_client_id/" +:+ default "None" existing_client_order_id
            +:+ "/modify"
        end in
      _post ts path
        (Some (match size with Some n => [("size", JNum n)] | None => [] end ++
               match price with Some n => [("price", JNum n)] | None => [] end ++
               match client_order_id with
               | Some id => [("clientId", JStr id)]
               | None => []
               end))
        cl
  end.

Definition place_conditional_order (ts : Z) (market side : string) (size : Z)
    (type : string) (limit_price : option Z) (reduce_only cancel : bool)
    (trigger_price trail_value : option Z) (cl : rest_client)
  : rest_client * rest_result json :=
  match
    _ ← py_assert (bool_decide (type ∈ ["stop"; "take_profit"; "trailing_stop"])) "";
    _ ← py_assert (negb (bool_decide (type ∈ ["stop"; "take_profit"]))
                   || negb (bool_decide (trigger_price = None)))
                  "Need trigger prices for stop losses and take profits";
    py_assert (negb (str_in type "trailing_stop")
               || (bool_decide (trigger_price = None)
                   && negb (bool_decide (trail_value = None))))
              "Trailing stops need a trail value and cannot take a trigger price"
  with
  | Raises e => (cl, Raises e)
  | Returns _ =>
      _post ts "conditional_orders"
        (Some [("market", JStr market); ("side", JStr side);
               ("triggerPrice", opt_num trigger_price); ("size", JNum size);
               ("reduceOnly", JBool reduce_only); ("type", JStr "stop");
               ("cancelLimitOnTrigger", JBool cancel);
               ("orderPrice", opt_num limit_price)])
        cl
  end.

Definition get_positions (ts : Z) (show_avg_price : bool) (cl : rest_client)
  : rest_client * rest_result json :=
  _get ts "positions" (Some [("showAvgPrice", JBool show_avg_price)]) cl.

Definition get_position (ts : Z) (name : string) (show_avg_price : bool)
    (cl : rest_client) : rest_client * rest_result (option json) :=
  let '(cl, r) := get_positions ts show_avg_price cl in
  (cl, positions ← r; items ← iterate positions; first_position name items).

End rest.

(** A server that answers every request with one document. *)
Definition answering (doc : json) : request → response :=
  λ _, Response 200 (Some doc).

(** A [prepare] that keeps the method, takes the URL after the endpoint as
    the path and has no body. *)
Definition plain_prepare (req : request) : prepared :=
  Prepared (method req) (url req) None.

Definition sample_rest_client : rest_client :=
  RestClient (Some "key") (Some "s3cr3t") None [].

Definition sample_positions : json :=
  JList [JDict [("future", JStr "ETH-PERP"); ("size", JNum 1)];
         JDict [("future", JStr "BTC-PERP"); ("size", JNum 2)];
         JDict [("future", JStr "BTC-PERP"); ("size", JNum 3)];
         JNum 7].

(** What [x['future'] == name] makes of one item: it matches, it does not,
    or the subscript raises. *)
Definition future_is (name : string) (x : json) : Prop :=
  subscript x "future" = Returns (JStr name).

Definition future_is_not (name : string) (x : json) : Prop :=
  ∃ v, subscript x "future" = Returns v ∧ v ≠ JStr name.

(** ** Proof support *)

(** Reading an attribute back through the assignments. *)
Ltac client_simpl :=
  cbn [ _trades _fills _api_key _api_secret _orderbook_update_events
        _subscriptions _orders _tickers _orderbook_timestamps _orderbooks
        _logged_in _last_received_orderbook_data_at _trace
        set_trades set_fills set_events set_subscriptions set_orders
        set_tickers set_timestamps set_orderbooks set_logged_in
        set_last_received set_trace fst snd ] in *.

Ltac unfold_ops :=
  unfold get_fills, get_orders, get_trades, get_ticker, get_orderbook,
    get_orderbook_timestamp, wait_for_orderbook_update, subscribe_if_absent,
    on_mismatch, _login, _subscribe, _unsubscribe, _reset_orderbook, _on_open,
    _reset_data, event_wait, event_pulse, send_json, reconnect in *.

(** * Properties *)

(** ** Reference vectors of the library functions *)

Example crc32_check_value : Crc32.crc32 (encode "123456789") = 0xCBF43926.
Proof. vm_compute. reflexivity. Qed.

Example float_str_100 : float_str 100 = "100.0".
Proof. vm_compute. reflexivity. Qed.

Example float_str_neg : float_str (-1) = "-1.0".
Proof. vm_compute. reflexivity. Qed.

Example sha256_constants :
  take 2 Sha256.K = [0x428a2f98; 0x71374491] ∧ last Sha256.K = Some 0xc67178f2 ∧
  take 2 Sha256.H0 = [0x6a09e667; 0xbb67ae85] ∧ last Sha256.H0 = Some 0x5be0cd19.
Proof. vm_compute. repeat split. Qed.

Example sha256_abc :
  Sha256.hexdigest (Sha256.sha256 (encode "abc"))
  = "ba7816bf8f01cfea414140de5dae2223b00361a396177a9cb410ff61f20015ad".
Proof. vm_compute. reflexivity. Qed.

Example hmac_rfc4231_case2 :
  Sha256.hexdigest (Sha256.hmac (encode "Jefe") (encode "what do ya want for nothing?"))
  = "5bdcc146bf60754e6a042426089575c75a003f089d2739839dec58b964ec3843".
Proof. vm_compute. reflexivity. Qed.

(** ** The bounded buffers *)

Lemma maxlen_pos : (0 < maxlen)%nat.
Proof. unfold maxlen. lia. Qed.

Lemma deque_append_length {A} (d : list A) (x : A) :
  (length d ≤ maxlen)%nat → (length (deque_append d x) ≤ maxlen)%nat.
Proof.
  intros Hd. pose proof maxlen_pos. unfold deque_append.
  case_decide; rewrite length_app, ?length_drop; simpl; lia.
Qed.

(** A run of appends keeps the newest [maxlen] items, in arrival order. *)
Lemma deque_append_all {A} (xs d : list A) :
  (length d ≤ maxlen)%nat →
  fold_left deque_append xs d = drop (length (d ++ xs) - maxlen) (d ++ xs).
Proof.
  revert d. induction xs as [|x xs IH]; intros d Hd.
  - rewrite app_nil_r. replace (length d - maxlen)%nat with 0%nat by lia.
    reflexivity.
  - cbn [fold_left]. rewrite IH by (by apply deque_append_length).
    pose proof maxlen_pos. unfold deque_append. case_decide.
    + rewrite <- app_assoc. reflexivity.
    + assert (length d = maxlen) as Hfull by lia.
      destruct d as [|y d]; [cbn [length] in Hfull; lia|].
      cbn [length] in Hfull.
      change (drop 1 (y :: d)) with d.
      rewrite <- !app_assoc. cbn [app].
      cbn [length]. rewrite !length_app. cbn [length].
      replace (length d + S (length xs) - maxlen)%nat with (length xs) by lia.
      replace (S (length d + S (length xs)) - maxlen)%nat with (S (length xs)) by lia.
      reflexivity.
Qed.

Lemma on_trades_message market data c :
  _on_message (trades_message market data) c
  = Ok (set_trades c (<[market := deque_append (default [] (_trades c !! market)) data]>
                        (_trades c))).
Proof. reflexivity. Qed.

Lemma run_trades_messages market ds c :
  ds ≠ [] →
  ∃ c', run (trades_message market <$> ds) c = Ok c' ∧
        _trades c' !! market
        = Some (fold_left deque_append ds (default [] (_trades c !! market))).
Proof.
  revert c. induction ds as [|d ds IH]; intros c Hne; [done|].
  cbn [fmap list_fmap run]. rewrite on_trades_message. cbn [mbind result_bind].
  destruct ds as [|d' ds].
  - eexists. split; [reflexivity|]. client_simpl. by rewrite lookup_insert_eq.
  - destruct (IH (set_trades c (<[market := deque_append (default [] (_trades c !! market)) d]>
                        (_trades c)))) as (c' & Hrun & Hlook); [done|].
    exists c'. split; [exact Hrun|]. rewrite Hlook. client_simpl.
    by rewrite lookup_insert_eq.
Qed.

(** The orderbook handler leaves the trade buffers alone. *)
Lemma get_orderbook_trades market c :
  _trades (get_orderbook market c).1 = _trades c.
Proof. unfold_ops. repeat case_decide; reflexivity. Qed.

Lemma apply_side_trades market data s c c' :
  apply_side market data s c = Ok c' → _trades c' = _trades c.
Proof.
  unfold apply_side. destruct (apply_levels _ _); cbn [mbind result_bind]; [|done].
  intros [= <-]. reflexivity.
Qed.

Lemma verify_checksum_trades market data c :
  _trades (verify_checksum market data c) = _trades c.
Proof.
  unfold verify_checksum.
  pose proof (get_orderbook_trades market c) as Hg.
  destruct (get_orderbook market c) as [c1 ob]. cbn [fst] in Hg.
  rewrite <- Hg. destruct (decide (computed_result ob ≠ checksum data)); reflexivity.
Qed.

Lemma apply_orderbook_data_trades market data c c' :
  apply_orderbook_data market data c = Ok c' → _trades c' = _trades c.
Proof.
  unfold apply_orderbook_data.
  set (c0 := if decide (action data = "partial") then _ else _).
  assert (_trades c0 = _trades c) as H0 by (subst c0; case_decide; reflexivity).
  destruct (apply_side market data Bids c0) as [c1|] eqn:H1; cbn [mbind result_bind]; [|done].
  intros H2. apply apply_side_trades in H1, H2. congruence.
Qed.

Lemma handle_orderbook_trades message c c' :
  _handle_orderbook_message message c = Ok c' → _trades c' = _trades c.
Proof.
  unfold _handle_orderbook_message.
  destruct (msg_market message) as [market|]; [|by destruct (msg_data message)].
  destruct (msg_data message) as [[data| |]|]; try done.
  destruct (apply_orderbook_data market data c) as [c1|] eqn:H1;
    cbn [mbind result_bind]; [|done].
  intros [= <-]. rewrite verify_checksum_trades.
  by eapply apply_orderbook_data_trades.
Qed.

Lemma on_message_trades_bounded message c c' :
  trades_bounded c → _on_message message c = Ok c' → trades_bounded c'.
Proof.
  intros Hb. unfold _on_message, dispatch_channel.
  assert (∀ c1, _trades c1 = _trades c → trades_bounded c1) as Hsame.
  { intros c1 Heq market buf. rewrite Heq. apply Hb. }
  assert (dispatch_channel message c = Ok c' → trades_bounded c') as Hdispatch.
  { unfold dispatch_channel.
    destruct (msg_channel message) as [channel|]; [|done].
    repeat case_decide.
    - intros Hh. apply Hsame. by eapply handle_orderbook_trades.
    - unfold _handle_trades_message.
      destruct (msg_market message) as [market|]; [|done].
      destruct (msg_data message) as [data|]; [|done].
      intros [= <-] market' buf. client_simpl.
      destruct (decide (market = market')) as [->|Hne].
      + rewrite lookup_insert_eq. intros [= <-]. apply deque_append_length.
        destruct (_trades c !! market') as [d|] eqn:Hd; cbn [default].
        * by eapply Hb.
        * cbn [length]. lia.
      + rewrite lookup_insert_ne by done. apply Hb.
    - unfold _handle_ticker_message.
      destruct (msg_market message); [|done]. destruct (msg_data message); [|done].
      intros [= <-]. by apply Hsame.
    - unfold _handle_fills_message. destruct (msg_data message); [|done].
      intros [= <-]. by apply Hsame.
    - unfold _handle_orders_message. destruct (msg_data message) as [[| |]|]; try done.
      intros [= <-]. by apply Hsame.
    - intros [= <-]. exact Hb. }
  fold (dispatch_channel message c).
  destruct (msg_type message) as [message_type|]; [|done].
  repeat case_decide; try done.
  - intros [= <-]. exact Hb.
  - destruct (msg_code message) as [code|]; [|done]. case_decide; [|done].
    intros [= <-]. by apply Hsame.
Qed.

Lemma run_trades_bounded messages c c' :
  trades_bounded c → run messages c = Ok c' → trades_bounded c'.
Proof.
  revert c. induction messages as [|m messages IH]; intros c Hb.
  - intros [= <-]. exact Hb.
  - cbn [run]. destruct (_on_message m c) as [c1|] eqn:H1; cbn [mbind result_bind]; [|done].
    apply IH. by eapply on_message_trades_bounded.
Qed.

(** C7. Starting from a market without a buffer, 10 001 trades messages
    leave exactly the last 10 000 payloads, in arrival order (the first one
    was evicted); and no run of inbound messages, of whatever channel,
    makes a trade buffer longer than 10 000. *)
Theorem trades_buffer_keeps_newest_10000 :
  (∀ (market : string) (ds : list payload) (c : client),
     _trades c !! market = None →
     Z.of_nat (length ds) = 10001 →
     ∃ c', run (trades_message market <$> ds) c = Ok c' ∧
           _trades c' !! market = Some (drop 1 ds) ∧
           Z.of_nat (length (drop 1 ds)) = 10000) ∧
  (∀ (messages : list message) (c c' : client),
     trades_bounded c → run messages c = Ok c' →
     ∀ market buf, _trades c' !! market = Some buf → Z.of_nat (length buf) ≤ 10000).
Proof.
  split.
  - intros market ds c Hnone Hlen.
    destruct (run_trades_messages market ds c) as (c' & Hrun & Hlook).
    { intros ->. discriminate Hlen. }
    exists c'. split; [exact Hrun|]. rewrite Hlook, Hnone. cbn [default].
    rewrite deque_append_all by (cbn [length]; lia).
    cbn [app].
    replace (length ds - maxlen)%nat with 1%nat by (unfold maxlen; lia).
    split; [reflexivity|]. rewrite length_drop. lia.
  - intros messages c c' Hb Hrun market buf Hlook.
    pose proof (run_trades_bounded messages c c' Hb Hrun market buf Hlook) as H.
    unfold maxlen in H. lia.
Qed.

(** The theorem on 10 001 numbered trades pushed into a new client, and on
    one trade pushed into a new client. *)
Lemma trades_buffer_keeps_newest_10000_witness :
  (∃ c', run (trades_message "BTC-PERP" <$> numbered_trades 10001) (init "" "") = Ok c' ∧
         _trades c' !! "BTC-PERP" = Some (drop 1 (numbered_trades 10001)) ∧
         Z.of_nat (length (drop 1 (numbered_trades 10001))) = 10000) ∧
  (∀ market buf,
     _trades (set_trades (init "" "") {["BTC-PERP" := [OtherPayload "t1"]]}) !! market
     = Some buf →
     Z.of_nat (length buf) ≤ 10000).
Proof.
  split.
  - apply (proj1 trades_buffer_keeps_newest_10000);
      [reflexivity | vm_compute; reflexivity].
  - apply (proj2 trades_buffer_keeps_newest_10000
             [trades_message "BTC-PERP" (OtherPayload "t1")] (init "" ""));
      [|vm_compute; reflexivity].
    intros market buf H. cbn in H. by rewrite lookup_empty in H.
Defined.

(** ** Subscriptions *)

Lemma subscribe_frames_app tr1 tr2 :
  subscribe_frames (tr1 ++ tr2) = subscribe_frames tr1 ++ subscribe_frames tr2.
Proof. apply omap_app. Qed.

Lemma subscribe_if_absent_subscriptions sub c :
  _subscriptions (subscribe_if_absent sub c) = _subscriptions c ++ added sub c.
Proof.
  unfold subscribe_if_absent, added. case_decide; [by rewrite app_nil_r|reflexivity].
Qed.

Lemma subscribe_if_absent_frames sub c :
  subscribe_frames (_trace (subscribe_if_absent sub c))
  = subscribe_frames (_trace c) ++ added sub c.
Proof.
  unfold subscribe_if_absent, added. case_decide; [by rewrite app_nil_r|].
  unfold _subscribe, send_json. client_simpl. by rewrite subscribe_frames_app.
Qed.

Lemma subscribe_if_absent_elem sub c :
  sub ∈ _subscriptions (subscribe_if_absent sub c).
Proof.
  rewrite subscribe_if_absent_subscriptions. unfold added.
  case_decide; set_solver.
Qed.

Lemma subscribe_if_absent_id sub c :
  sub ∈ _subscriptions c → subscribe_if_absent sub c = c.
Proof. intros H. unfold subscribe_if_absent. by case_decide. Qed.

Lemma login_if_needed_frames ts c :
  subscribe_frames (_trace (if _logged_in c then c else _login ts c))
  = subscribe_frames (_trace c) ∧
  _subscriptions (if _logged_in c then c else _login ts c) = _subscriptions c.
Proof.
  destruct (_logged_in c); [done|]. unfold _login, send_json. client_simpl.
  split; [|reflexivity]. rewrite subscribe_frames_app. cbn. by rewrite app_nil_r.
Qed.

(** One call of a read operation: the subscription is recorded and its
    frame sent when, and only when, it was not recorded before. *)
Lemma call_once ts op c :
  subscribe_frames (_trace (call ts op c))
  = subscribe_frames (_trace c) ++ added (op_subscription op) c ∧
  _subscriptions (call ts op c) = _subscriptions c ++ added (op_subscription op) c.
Proof.
  destruct op as [| |market|market|market|market timeout]; cbn [call op_subscription].
  - unfold get_fills. cbn [fst].
    destruct (login_if_needed_frames ts c) as [Hf Hs].
    rewrite subscribe_if_absent_frames, subscribe_if_absent_subscriptions.
    unfold added. rewrite Hf, Hs. done.
  - unfold get_orders. cbn [fst].
    destruct (login_if_needed_frames ts c) as [Hf Hs].
    rewrite subscribe_if_absent_frames, subscribe_if_absent_subscriptions.
    unfold added. rewrite Hf, Hs. done.
  - unfold get_trades. client_simpl.
    by rewrite subscribe_if_absent_frames, subscribe_if_absent_subscriptions.
  - unfold get_orderbook. client_simpl.
    set (sub := Subscription "orderbook" (Some market)).
    set (c1 := subscribe_if_absent sub c).
    set (c2 := set_timestamps c1 _).
    assert (sub ∈ _subscriptions c2) as Hin by apply subscribe_if_absent_elem.
    assert (_trace c2 = _trace c1) as Ht by reflexivity.
    assert (_subscriptions c2 = _subscriptions c1) as Hs by reflexivity.
    case_decide.
    + unfold wait_for_orderbook_update. fold sub.
      rewrite (subscribe_if_absent_id sub c2 Hin).
      unfold event_wait. client_simpl. rewrite subscribe_frames_app, Ht, Hs.
      cbn [subscribe_frames omap]. rewrite app_nil_r. subst c1.
      by rewrite subscribe_if_absent_frames, subscribe_if_absent_subscriptions.
    + rewrite Ht, Hs. subst c1.
      by rewrite subscribe_if_absent_frames, subscribe_if_absent_subscriptions.
  - unfold get_ticker. client_simpl.
    by rewrite subscribe_if_absent_frames, subscribe_if_absent_subscriptions.
  - unfold wait_for_orderbook_update, event_wait. client_simpl.
    rewrite subscribe_frames_app. cbn [subscribe_frames omap]. rewrite app_nil_r.
    by rewrite subscribe_if_absent_frames, subscribe_if_absent_subscriptions.
Qed.

(** C6. Two calls in a row of any read operation send exactly one subscribe
    frame for its subscription and record it once when it was not recorded
    before, and send and record nothing when it was. *)
Theorem read_twice_subscribes_once (op : read_op) (ts1 ts2 : Z) (c : client) :
  let sub := op_subscription op in
  let c2 := call ts2 op (call ts1 op c) in
  subscribe_frames (_trace c2)
  = subscribe_frames (_trace c) ++ (if decide (sub ∈ _subscriptions c) then [] else [sub]) ∧
  _subscriptions c2
  = _subscriptions c ++ (if decide (sub ∈ _subscriptions c) then [] else [sub]).
Proof.
  intros sub c2. subst c2.
  destruct (call_once ts1 op c) as [Hf1 Hs1].
  destruct (call_once ts2 op (call ts1 op c)) as [Hf2 Hs2].
  assert (added (op_subscription op) (call ts1 op c) = []) as Hnone.
  { unfold added at 1. rewrite Hs1. unfold added. case_decide as Hin; [done|].
    exfalso. apply Hin. case_decide; set_solver. }
  rewrite Hf2, Hs2, Hnone, !app_nil_r, Hf1, Hs1. done.
Qed.

(** [while sub in l: l.remove(sub)] ends with every entry equal to [sub]
    gone and the others in place; [length l] turns are enough. *)
Lemma list_remove_length {A} `{EqDecision A} (x : A) (l : list A) :
  x ∈ l → S (length (list_remove x l)) = length l.
Proof.
  induction l as [|y l IH]; [by intros ?%elem_of_nil|].
  intros Hin. cbn [list_remove]. destruct (decide (y = x)) as [|Hne]; [done|].
  cbn [length]. f_equal. apply IH.
  apply elem_of_cons in Hin as [->|Hin]; [done|exact Hin].
Qed.

Lemma list_remove_filter {A} `{EqDecision A} (x : A) (l : list A) :
  filter (λ y, y ≠ x) (list_remove x l) = filter (λ y, y ≠ x) l.
Proof.
  induction l as [|y l IH]; [done|].
  cbn [list_remove]. case_decide as Hy.
  - subst y. by rewrite filter_cons_False by (intros ?; done).
  - by rewrite !filter_cons_True, IH by done.
Qed.

Lemma filter_all {A} (P : A → Prop) `{∀ x, Decision (P x)} (l : list A) :
  Forall P l → filter P l = l.
Proof.
  induction 1 as [|x l Hx _ IH]; [done|]. by rewrite filter_cons_True, IH.
Qed.

Lemma filter_none {A} (P : A → Prop) `{∀ x, Decision (P x)} (l : list A) :
  Forall (λ x, ¬ P x) l → filter P l = [].
Proof.
  induction 1 as [|x l Hx _ IH]; [done|]. by rewrite filter_cons_False.
Qed.

Lemma remove_while_filter {A} `{EqDecision A} (fuel : nat) (x : A) (l : list A) :
  (length l ≤ fuel)%nat → remove_while fuel x l = filter (λ y, y ≠ x) l.
Proof.
  revert l. induction fuel as [|fuel IH]; intros l Hlen.
  - destruct l; [done|cbn [length] in Hlen; lia].
  - cbn [remove_while]. case_decide as Hin.
    + pose proof (list_remove_length x l Hin).
      rewrite IH by lia. apply list_remove_filter.
    + symmetry. apply filter_all, Forall_forall.
      intros y Hy ->. done.
Qed.

Lemma unsubscribe_subscriptions sub c :
  _subscriptions (_unsubscribe sub c) = filter (λ y, y ≠ sub) (_subscriptions c).
Proof.
  unfold _unsubscribe, send_json. client_simpl. by apply remove_while_filter.
Qed.

Lemma filter_eq_after_removal {A} `{EqDecision A} (x : A) (l : list A) :
  filter (λ y, y = x) (filter (λ y, y ≠ x) l ++ [x]) = [x].
Proof.
  rewrite filter_app, filter_cons_True, filter_nil by done.
  rewrite (list_filter_filter (λ y, y = x) (λ y, y ≠ x)).
  rewrite filter_none; [done|]. apply Forall_forall. by intros y _ [? ?].
Qed.

(** ** Checksum mismatch *)

Lemma get_orderbook_result market c :
  (get_orderbook market c).2
  = λ s, side_levels s (default empty_book (_orderbooks c !! market)).
Proof.
  unfold get_orderbook. cbn [snd].
  set (c1 := subscribe_if_absent _ c).
  assert (_orderbooks c1 = _orderbooks c) as H1.
  { subst c1. unfold subscribe_if_absent. by case_decide. }
  case_decide.
  - unfold wait_for_orderbook_update.
    set (c2 := subscribe_if_absent _ _).
    assert (_orderbooks c2 = _orderbooks c1) as H2.
    { subst c2. unfold subscribe_if_absent. by case_decide. }
    unfold event_wait. client_simpl. by rewrite H2, H1.
  - client_simpl. by rewrite H1.
Qed.

(** C4. When the checksum computed after applying an orderbook message
    differs from the one the server sent, the handler returns with the
    market's book and timestamp deleted, the last-data-received marker at 0,
    an unsubscribe frame followed by a subscribe frame as the last two
    things sent, and exactly one orderbook subscription for the market in
    the list. *)
Theorem checksum_mismatch_resets_and_resubscribes
    (message : message) (market : string) (data : orderbook_data) (c c1 : client) :
  msg_market message = Some market →
  msg_data message = Some (BookPayload data) →
  apply_orderbook_data market data c = Ok c1 →
  computed_result (get_orderbook market c1).2 ≠ checksum data →
  ∃ c', _handle_orderbook_message message c = Ok c' ∧
        _orderbooks c' !! market = None ∧
        _orderbook_timestamps c' !! market = None ∧
        _last_received_orderbook_data_at c' = 0 ∧
        filter (λ sub, sub = orderbook_sub market) (_subscriptions c')
        = [orderbook_sub market] ∧
        ∃ tr, _trace c' = tr ++ [Sent (UnsubscribeFrame (orderbook_sub market));
                                 Sent (SubscribeFrame (orderbook_sub market))].
Proof.
  intros Hmarket Hdata Happly Hdiff.
  unfold _handle_orderbook_message. rewrite Hmarket, Hdata, Happly.
  cbn [mbind result_bind]. eexists. split; [reflexivity|].
  unfold verify_checksum.
  destruct (get_orderbook market c1) as [c2 ob] eqn:Hget.
  cbn [snd] in Hdiff. rewrite decide_True by done.
  unfold on_mismatch.
  set (c3 := _reset_orderbook market (set_last_received c2 0)).
  repeat split.
  - unfold _subscribe, send_json. client_simpl.
    change (_orderbooks (_unsubscribe (orderbook_sub market) c3))
      with (_orderbooks c3).
    subst c3. unfold _reset_orderbook. client_simpl. apply lookup_delete_eq.
  - unfold _subscribe, send_json. client_simpl.
    change (_orderbook_timestamps (_unsubscribe (orderbook_sub market) c3))
      with (_orderbook_timestamps c3).
    subst c3. unfold _reset_orderbook. client_simpl. apply lookup_delete_eq.
  - unfold _subscribe, send_json. client_simpl.
    rewrite unsubscribe_subscriptions. apply filter_eq_after_removal.
  - exists (_trace c3). unfold _subscribe, _unsubscribe, send_json. client_simpl.
    by rewrite <- app_assoc.
Qed.

(** The theorem on a new client that receives a snapshot with a wrong
    checksum. *)
Lemma checksum_mismatch_resets_and_resubscribes_witness :
  ∃ c', _handle_orderbook_message
          (orderbook_message "BTC-PERP" partial_bad_checksum) (init "" "") = Ok c' ∧
        _orderbooks c' !! "BTC-PERP" = None ∧
        _orderbook_timestamps c' !! "BTC-PERP" = None ∧
        _last_received_orderbook_data_at c' = 0 ∧
        filter (λ sub, sub = orderbook_sub "BTC-PERP") (_subscriptions c')
        = [orderbook_sub "BTC-PERP"] ∧
        ∃ tr, _trace c' = tr ++ [Sent (UnsubscribeFrame (orderbook_sub "BTC-PERP"));
                                 Sent (SubscribeFrame (orderbook_sub "BTC-PERP"))].
Proof.
  eapply (checksum_mismatch_resets_and_resubscribes
            (orderbook_message "BTC-PERP" partial_bad_checksum)
            "BTC-PERP" partial_bad_checksum (init "" ""));
    [reflexivity | reflexivity | vm_compute; reflexivity | vm_compute; lia].
Defined.

(** ** A new connection *)

(** C5 (as the code has it). [_on_open] empties the subscription list,
    the order books, their timestamps and update events, the ticker cache
    and the order cache, clears the logged-in flag and the
    last-data-received marker; the trade buffers and the fill buffer are
    created by the constructor only and come through unchanged. *)
Theorem on_open_resets_connection_state (c : client) :
  let c' := _on_open c in
  _subscriptions c' = [] ∧
  _orderbooks c' = ∅ ∧
  _orderbook_timestamps c' = ∅ ∧
  _orderbook_update_events c' = ∅ ∧
  _tickers c' = ∅ ∧
  _orders c' = ∅ ∧
  _logged_in c' = false ∧
  _last_received_orderbook_data_at c' = 0 ∧
  _trades c' = _trades c ∧
  _fills c' = _fills c.
Proof. repeat split. Qed.

(** A trade and a fill received before the connection reopens are still in
    their buffers afterwards. *)
Lemma on_open_keeps_trades_and_fills :
  ∃ c, run [trades_message "BTC-PERP" (OtherPayload "t1");
            fills_message (OtherPayload "f1")] (init "" "") = Ok c ∧
       _trades (_on_open c) !! "BTC-PERP" = Some [OtherPayload "t1"] ∧
       _fills (_on_open c) = [OtherPayload "f1"].
Proof. eexists. split; [reflexivity|]. split; vm_compute; reflexivity. Qed.

(** ** Login *)

(** C9. [_login] sends one login frame with the key, the hex digest of
    HMAC-SHA256 keyed with the secret over [str(ts) + "websocket_login"],
    and the timestamp, and sets the logged-in flag; for the secret [s3cr3t]
    and the timestamp 1700000000000 the signature is the digest that the
    HMAC-SHA256 of RFC 2104 over SHA-256 of FIPS 180-4 gives. *)
Theorem login_sends_hmac_sha256_signature :
  (∀ (ts : Z) (c : client),
     _trace (_login ts c)
     = _trace c ++
       [Sent (LoginFrame (_api_key c)
                (Sha256.hexdigest
                   (Sha256.hmac (encode (_api_secret c))
                                (encode (pretty ts +:+ "websocket_login"))))
                ts)] ∧
     _logged_in (_login ts c) = true) ∧
  login_signature "s3cr3t" 1700000000000
  = "28afbecdee670647f83cfb84862766f1917fbc5538b1a569d66dcb6aa50bc6ec".
Proof.
  split; [intros ts c; split; reflexivity|]. vm_compute. reflexivity.
Qed.

(** ** Reading a market without data *)

Lemma side_levels_empty_book s : side_levels s empty_book = [].
Proof. destruct s; reflexivity. Qed.



(** ** The dispatcher *)




(** ** Applying a diff *)

(** C2 (failing input). An update that carries size 0 for a price the book
    does not hold makes the handler raise [KeyError]: [del book[price]] is
    not guarded. *)
Theorem update_removing_absent_price_raises :
  _on_message (orderbook_message "BTC-PERP" update_absent_price) (init "" "")
  = Raise KeyError.
Proof. reflexivity. Qed.

(** The scenario of section 8 holds when the two messages carry the
    checksums of the books they leave. *)
Example scenario_partial_then_update :
  ∃ c1 c2,
    _on_message (orderbook_message "BTC-PERP" scenario_partial) (init "" "") = Ok c1 ∧
    (get_orderbook "BTC-PERP" c1).2 Bids = [(100, 1); (99, 2)] ∧
    (get_orderbook "BTC-PERP" c1).2 Asks = [(101, 1)] ∧
    _on_message (orderbook_message "BTC-PERP" scenario_update) c1 = Ok c2 ∧
    (get_orderbook "BTC-PERP" c2).2 Bids = [(99, 2)] ∧
    (get_orderbook "BTC-PERP" c2).2 Asks = [(101, 1)].
Proof.
  do 2 eexists. split; [vm_compute; reflexivity|].
  repeat split; vm_compute; reflexivity.
Qed.

(** ** Reading the book *)

#[local] Instance key_le_total {A} (key : A → Z) : Total (key_le key).
Proof. intros x y. unfold key_le. lia. Qed.

#[local] Instance key_le_trans {A} (key : A → Z) : Transitive (key_le key).
Proof. intros x y z. unfold key_le. lia. Qed.

Lemma sorted_strongly {A} (key : A → Z) (l : list A) :
  StronglySorted (key_le key) (sorted key l).
Proof. apply StronglySorted_merge_sort; apply _. Qed.

Lemma sorted_permutation {A} (key : A → Z) (l : list A) : sorted key l ≡ₚ l.
Proof. apply merge_sort_Permutation. Qed.

(** Sorted by the key and without two entries of one price: strictly
    sorted by price, downwards for bids and upwards for asks. *)
Lemma strictly_sorted_by_price s (l : list (Z * Z)) :
  StronglySorted (key_le (sort_key s)) l → NoDup (l.*1) → StronglySorted (better s) l.
Proof.
  induction 1 as [|x l Hsorted IH Hall]; intros Hnodup; [constructor|].
  cbn [fmap list_fmap] in Hnodup. apply NoDup_cons in Hnodup as [Hx Hnodup].
  constructor; [by apply IH|].
  apply Forall_forall. intros y Hy.
  rewrite Forall_forall in Hall. specialize (Hall y Hy).
  assert (x.1 ≠ y.1) as Hne.
  { intros Heq. apply Hx. rewrite Heq. by apply list_elem_of_fmap_2. }
  unfold key_le, sort_key in Hall. unfold better. destruct s; lia.
Qed.

Lemma side_levels_is_side_of s b : is_side_of s b (side_levels s b).
Proof.
  unfold side_levels.
  set (l0 := filter (λ order : Z * Z, order.2 ≠ 0) (map_to_list (book_side s b))).
  split.
  - apply strictly_sorted_by_price; [apply sorted_strongly|].
    rewrite (sorted_permutation (sort_key s) l0).
    eapply sublist_NoDup; [apply (NoDup_fst_map_to_list (book_side s b))|].
    apply fmap_sublist, sublist_filter.
  - intros price size. rewrite (sorted_permutation (sort_key s) l0).
    subst l0. rewrite list_elem_of_filter, elem_of_map_to_list. cbn [snd].
    tauto.
Qed.


(** *** Sizes stored in the books *)













(** ** The checksum *)





Lemma apply_side_book market data s c c' :
  apply_side market data s c = Ok c' → is_Some (_orderbooks c' !! market).
Proof.
  unfold apply_side. destruct (apply_levels _ _); cbn [mbind result_bind]; [|done].
  intros [= <-]. client_simpl. rewrite lookup_insert_eq. by eexists.
Qed.

Lemma apply_orderbook_data_book market data c c' :
  apply_orderbook_data market data c = Ok c' → is_Some (_orderbooks c' !! market).
Proof.
  unfold apply_orderbook_data.
  destruct (apply_side market data Bids _) as [c1|]; cbn [mbind result_bind]; [|done].
  apply apply_side_book.
Qed.



(** The string and its checksum on the book of the scenario's snapshot. *)
Example checksum_string_of_scenario :
  spec_checksum_string [(100, 1); (99, 2)] [(101, 1)] = "100.0:1.0:101.0:1.0:99.0:2.0" ∧
  Crc32.crc32 (encode "100.0:1.0:101.0:1.0:99.0:2.0") = 483019333.
Proof. split; vm_compute; reflexivity. Qed.

(** ** Further properties of the handlers *)

(** [_unsubscribe] sends one unsubscribe frame and removes every entry
    equal to the subscription, leaving the others in their order. *)
Theorem unsubscribe_removes_every_equal_entry (sub : subscription) (c : client) :
  _trace (_unsubscribe sub c) = _trace c ++ [Sent (UnsubscribeFrame sub)] ∧
  _subscriptions (_unsubscribe sub c) = filter (λ y, y ≠ sub) (_subscriptions c) ∧
  sub ∉ _subscriptions (_unsubscribe sub c).
Proof.
  split; [reflexivity|].
  assert (_subscriptions (_unsubscribe sub c)
          = filter (λ y, y ≠ sub) (_subscriptions c)) as Heq.
  { unfold _unsubscribe, send_json. client_simpl. by apply remove_while_filter. }
  split; [exact Heq|]. rewrite Heq, list_elem_of_filter. by intros [? _].
Qed.

(** Both sides of an applied orderbook message leave the message's time as
    the market's timestamp. *)
Theorem applied_message_sets_timestamp
    (market : string) (data : orderbook_data) (c c1 : client) :
  apply_orderbook_data market data c = Ok c1 →
  _orderbook_timestamps c1 !! market = Some (time data).
Proof.
  unfold apply_orderbook_data.
  destruct (apply_side market data Bids _) as [c0|]; cbn [mbind result_bind]; [|done].
  unfold apply_side.
  destruct (apply_levels _ _); cbn [mbind result_bind]; [|done].
  intros [= <-]. client_simpl. apply lookup_insert_eq.
Qed.

(** The theorem on the snapshot of the scenario of section 8. *)
Lemma applied_message_sets_timestamp_witness :
  ∃ c1, apply_orderbook_data "BTC-PERP" scenario_partial (init "" "") = Ok c1 ∧
        _orderbook_timestamps c1 !! "BTC-PERP" = Some (time scenario_partial).
Proof.
  eexists.
  assert (apply_orderbook_data "BTC-PERP" scenario_partial (init "" "") = Ok _) as H
    by (vm_compute; reflexivity).
  split; [exact H|]. exact (applied_message_sets_timestamp _ _ _ _ H).
Defined.

(** A ticker message replaces the market's cached value, which
    [get_ticker] then returns. *)
Theorem ticker_message_overwrites_cache (market : string) (data : payload) (c : client) :
  ∃ c', _on_message (ticker_message market data) c = Ok c' ∧
        _tickers c' !! market = Some data ∧
        (get_ticker market c').2 = data.
Proof.
  eexists. split; [reflexivity|]. client_simpl.
  assert (∀ c0 : client, _tickers c0 !! market = Some data →
                         (get_ticker market c0).2 = data) as Hget.
  { intros c0 H0. unfold get_ticker. cbn [snd].
    replace (_tickers (subscribe_if_absent (Subscription "ticker" (Some market)) c0))
      with (_tickers c0); [by rewrite H0|].
    unfold subscribe_if_absent. by case_decide. }
  split; [|apply Hget]; client_simpl; apply lookup_insert_eq.
Qed.

(** An orders message stores its record under the record's id, replacing
    what was there, and [get_orders] returns it. *)
Theorem orders_message_upserts_by_id (ts id : Z) (body : string) (c : client) :
  ∃ c', _on_message (orders_message id body) c = Ok c' ∧
        _orders c' = <[id := OrderPayload id body]> (_orders c) ∧
        (get_orders ts c').2 !! id = Some (OrderPayload id body).
Proof.
  eexists. split; [reflexivity|]. split; [reflexivity|].
  unfold get_orders. cbn [snd].
  set (c1 := set_orders c _).
  set (c2 := if _logged_in c1 then c1 else _login ts c1).
  assert (_orders c2 = _orders c1) as H2 by (subst c2; by destruct (_logged_in c1)).
  replace (_orders (subscribe_if_absent (Subscription "orders" None) c2))
    with (_orders c2) by (unfold subscribe_if_absent; by case_decide).
  rewrite H2. subst c1. client_simpl. apply lookup_insert_eq.
Qed.

(** An info message with code 20001 makes the dispatcher call [reconnect]
    and touch nothing else; an error message is raised to the caller; a
    subscribed or unsubscribed acknowledgement is ignored. *)
Theorem dispatcher_control_messages (c : client) :
  _on_message (info_message 20001) c = Ok (reconnect c) ∧
  _on_message error_message c = Raise (ServerError error_message) ∧
  (∀ m, msg_type m = Some "subscribed" ∨ msg_type m = Some "unsubscribed" →
        _on_message m c = Ok c).
Proof.
  split; [reflexivity|]. split; [reflexivity|].
  intros m [H|H]; unfold _on_message; rewrite H; reflexivity.
Qed.

(** A snapshot discards the market's maps: the book it leaves is the
    message's levels applied to empty maps, whatever the book was. *)
Theorem snapshot_replaces_book
    (market : string) (data : orderbook_data) (c c1 : client) :
  action data = "partial" →
  apply_orderbook_data market data c = Ok c1 →
  ∃ new_bids new_asks,
    apply_levels (bids data) ∅ = Ok new_bids ∧
    apply_levels (asks data) ∅ = Ok new_asks ∧
    _orderbooks c1 !! market = Some (Book new_bids new_asks).
Proof.
  intros Hpartial. unfold apply_orderbook_data. rewrite decide_True by done.
  set (c0 := _reset_orderbook market c).
  assert (_orderbooks c0 !! market = None) as H0 by apply lookup_delete_eq.
  destruct (apply_side market data Bids c0) as [c2|] eqn:H2;
    cbn [mbind result_bind]; [|done].
  unfold apply_side in H2. rewrite H0 in H2.
  cbn [default id data_side book_side empty_book book_bids] in H2.
  destruct (apply_levels (bids data) ∅) as [new_bids|];
    cbn [mbind result_bind] in H2; [|done].
  injection H2 as <-.
  unfold apply_side. client_simpl. rewrite lookup_insert_eq.
  cbn [default id data_side book_side set_book_side empty_book book_bids book_asks].
  destruct (apply_levels (asks data) ∅) as [new_asks|]; cbn [mbind result_bind]; [|done].
  intros [= <-]. exists new_bids, new_asks. split; [done|]. split; [done|].
  client_simpl. by rewrite lookup_insert_eq.
Qed.

(** The theorem on the snapshot of the scenario of section 8. *)
Lemma snapshot_replaces_book_witness :
  ∃ c1 new_bids new_asks,
    apply_orderbook_data "BTC-PERP" scenario_partial (init "" "") = Ok c1 ∧
    apply_levels (bids scenario_partial) ∅ = Ok new_bids ∧
    apply_levels (asks scenario_partial) ∅ = Ok new_asks ∧
    _orderbooks c1 !! "BTC-PERP" = Some (Book new_bids new_asks).
Proof.
  eexists.
  assert (apply_orderbook_data "BTC-PERP" scenario_partial (init "" "") = Ok _) as H
    by (vm_compute; reflexivity).
  destruct (snapshot_replaces_book "BTC-PERP" scenario_partial _ _ eq_refl H)
    as (b & a & Hrest).
  exists b, a. split; [exact H|exact Hrest].
Defined.

(** *** The fill buffer *)

Lemma handle_orderbook_fills message c c' :
  _handle_orderbook_message message c = Ok c' → _fills c' = _fills c.
Proof.
  unfold _handle_orderbook_message.
  destruct (msg_market message) as [market|]; [|by destruct (msg_data message)].
  destruct (msg_data message) as [[data| |]|]; try done.
  unfold apply_orderbook_data.
  set (c0 := if decide (action data = "partial") then _ else _).
  assert (_fills c0 = _fills c) as H0 by (subst c0; case_decide; reflexivity).
  assert (∀ s ca cb, apply_side market data s ca = Ok cb → _fills cb = _fills ca)
    as Hside.
  { intros s ca cb. unfold apply_side.
    destruct (apply_levels _ _); cbn [mbind result_bind]; [|done].
    by intros [= <-]. }
  destruct (apply_side market data Bids c0) as [c1|] eqn:H1; cbn [mbind result_bind]; [|done].
  destruct (apply_side market data Asks c1) as [c2|] eqn:H2; cbn [mbind result_bind]; [|done].
  intros [= <-]. apply Hside in H1, H2. rewrite <- H0, <- H1, <- H2.
  unfold verify_checksum.
  assert (_fills (get_orderbook market c2).1 = _fills c2) as Hg.
  { unfold_ops. repeat case_decide; reflexivity. }
  destruct (get_orderbook market c2) as [c3 ob]. cbn [fst] in Hg.
  rewrite <- Hg. by case_decide.
Qed.

(** No inbound message makes the fill buffer longer than its capacity of
    10 000, and a fills message puts its payload at the end. *)
Theorem fills_buffer_bounded (message : message) (c c' : client) :
  (length (_fills c) ≤ maxlen)%nat →
  _on_message message c = Ok c' →
  Z.of_nat (length (_fills c')) ≤ 10000 ∧
  (msg_channel message = Some "fills" → msg_type message = Some "update" →
   ∃ data, msg_data message = Some data ∧ last (_fills c') = Some data).
Proof.
  intros Hb Hrun.
  assert (dispatch_channel message c = Ok c' →
          (length (_fills c') ≤ maxlen)%nat) as Hdispatch.
  { unfold dispatch_channel.
    destruct (msg_channel message) as [channel|]; [|done].
    repeat case_decide.
    - intros Hh. by rewrite (handle_orderbook_fills _ _ _ Hh).
    - unfold _handle_trades_message.
      destruct (msg_market message); [|done]. destruct (msg_data message); [|done].
      by intros [= <-].
    - unfold _handle_ticker_message.
      destruct (msg_market message); [|done]. destruct (msg_data message); [|done].
      by intros [= <-].
    - unfold _handle_fills_message. destruct (msg_data message); [|done].
      intros [= <-]. client_simpl. by apply deque_append_length.
    - unfold _handle_orders_message. destruct (msg_data message) as [[| |]|]; try done.
      by intros [= <-].
    - by intros [= <-]. }
  split.
  - assert (length (_fills c') ≤ maxlen)%nat as Hlen; [|unfold maxlen in Hlen; lia].
    revert Hrun. unfold _on_message.
    destruct (msg_type message) as [message_type|]; [|done].
    repeat case_decide; try done.
    + by intros [= <-].
    + destruct (msg_code message) as [code|]; [|done]. case_decide; [|done].
      by intros [= <-].
  - intros Hch Hty. revert Hrun. unfold _on_message, dispatch_channel.
    rewrite Hty, Hch. cbn. unfold _handle_fills_message.
    destruct (msg_data message) as [data|]; [|done].
    intros [= <-]. exists data. split; [done|]. client_simpl.
    unfold deque_append. case_decide; apply last_snoc.
Qed.

(** The theorem on a new client that receives one fill. *)
Lemma fills_buffer_bounded_witness :
  ∃ c', _on_message (fills_message (OtherPayload "f1")) (init "" "") = Ok c' ∧
        Z.of_nat (length (_fills c')) ≤ 10000 ∧
        ∃ data, msg_data (fills_message (OtherPayload "f1")) = Some data ∧
                last (_fills c') = Some data.
Proof.
  eexists.
  assert (_on_message (fills_message (OtherPayload "f1")) (init "" "") = Ok _) as H
    by (vm_compute; reflexivity).
  split; [exact H|].
  destruct (fills_buffer_bounded _ (init "" "") _ ltac:(vm_compute; lia) H)
    as [Hlen Hlast].
  split; [exact Hlen|]. apply Hlast; reflexivity.
Defined.

(** ** Invariants of the client *)

Lemma steps_invariant (P : client → Prop) :
  (∀ i c c', P c → step i c = Ok c' → P c') →
  ∀ inputs c c', P c → steps inputs c = Ok c' → P c'.
Proof.
  intros Hstep inputs. induction inputs as [|i inputs IH]; intros c c' Hc.
  - by intros [= <-].
  - cbn [steps]. destruct (step i c) as [c1|] eqn:H1; cbn [mbind result_bind]; [|done].
    apply IH. by eapply Hstep.
Qed.

(** The orderbook handler, taken apart. *)
Lemma handle_orderbook_inv message c c' :
  _handle_orderbook_message message c = Ok c' →
  ∃ market data c1,
    msg_market message = Some market ∧
    msg_data message = Some (BookPayload data) ∧
    apply_orderbook_data market data c = Ok c1 ∧
    c' = verify_checksum market data c1.
Proof.
  unfold _handle_orderbook_message.
  destruct (msg_market message) as [market|]; [|by destruct (msg_data message)].
  destruct (msg_data message) as [[data| |]|]; try done.
  destruct (apply_orderbook_data market data c) as [c1|] eqn:H1;
    cbn [mbind result_bind]; [|done].
  intros [= <-]. by exists market, data, c1.
Qed.

Lemma verify_checksum_cases market data c :
  verify_checksum market data c = on_mismatch market (call 0 (GetOrderbook market) c) ∨
  verify_checksum market data c = event_pulse market (call 0 (GetOrderbook market) c).
Proof.
  unfold verify_checksum. cbn [call].
  destruct (get_orderbook market c) as [c1 ob]. cbn [fst].
  case_decide; [by left|by right].
Qed.

(** Applying the levels changes the books and the timestamps only. *)
Lemma apply_side_shape market data s c c' :
  apply_side market data s c = Ok c' →
  c' = set_timestamps (set_orderbooks c (_orderbooks c')) (_orderbook_timestamps c').
Proof.
  unfold apply_side. destruct (apply_levels _ _); cbn [mbind result_bind]; [|done].
  by intros [= <-].
Qed.

Lemma apply_orderbook_data_shape market data c c' :
  apply_orderbook_data market data c = Ok c' →
  c' = set_timestamps (set_orderbooks c (_orderbooks c')) (_orderbook_timestamps c').
Proof.
  unfold apply_orderbook_data.
  set (c0 := if decide (action data = "partial") then _ else _).
  assert (c0 = set_timestamps (set_orderbooks c (_orderbooks c0))
                              (_orderbook_timestamps c0)) as H0.
  { subst c0. case_decide; [reflexivity|by destruct c]. }
  destruct (apply_side market data Bids c0) as [c1|] eqn:H1; cbn [mbind result_bind]; [|done].
  intros H2. apply apply_side_shape in H1, H2.
  rewrite H2, H1, H0. reflexivity.
Qed.

(** The dispatcher, case by case: a property that the orderbook handler
    keeps, and that does not look at the trades, tickers, fills, orders or
    the trace, is kept by the dispatcher. *)
Lemma on_message_keeps (P : client → Prop) message c c' :
  (∀ c1, _handle_orderbook_message message c = Ok c1 → P c1) →
  (∀ v, P (set_trades c v)) →
  (∀ v, P (set_tickers c v)) →
  (∀ v, P (set_fills c v)) →
  (∀ v, P (set_orders c v)) →
  (∀ v, P (set_trace c v)) →
  P c →
  _on_message message c = Ok c' → P c'.
Proof.
  intros Hbook Htrades Htickers Hfills Horders Htrace Hc.
  assert (dispatch_channel message c = Ok c' → P c') as Hdispatch.
  { unfold dispatch_channel.
    destruct (msg_channel message) as [channel|]; [|done].
    repeat case_decide.
    - apply Hbook.
    - unfold _handle_trades_message.
      destruct (msg_market message); [|done]. destruct (msg_data message); [|done].
      intros [= <-]. apply Htrades.
    - unfold _handle_ticker_message.
      destruct (msg_market message); [|done]. destruct (msg_data message); [|done].
      intros [= <-]. apply Htickers.
    - unfold _handle_fills_message. destruct (msg_data message); [|done].
      intros [= <-]. apply Hfills.
    - unfold _handle_orders_message. destruct (msg_data message) as [[| |]|]; try done.
      intros [= <-]. apply Horders.
    - by intros [= <-]. }
  unfold _on_message.
  destruct (msg_type message) as [message_type|]; [|done].
  repeat case_decide; try done.
  - by intros [= <-].
  - destruct (msg_code message) as [code|]; [|done]. case_decide; [|done].
    intros [= <-]. apply Htrace.
Qed.

(** *** The subscription list holds no duplicates *)







(** *** No update event is left set *)

Lemma subscribe_if_absent_events sub c :
  _orderbook_update_events (subscribe_if_absent sub c) = _orderbook_update_events c.
Proof. unfold subscribe_if_absent. by case_decide. Qed.

Lemma event_wait_clear market timeout c :
  events_clear c → events_clear (event_wait market timeout c).
Proof.
  intros Hc market' flag. unfold event_wait. client_simpl.
  destruct (decide (market = market')) as [->|Hne].
  - rewrite lookup_insert_eq. intros [= <-].
    destruct (_orderbook_update_events c !! market') as [f|] eqn:Hf; cbn [default id].
    + by apply (Hc market').
    + reflexivity.
  - rewrite lookup_insert_ne by done. apply Hc.
Qed.

Lemma events_clear_same c c' :
  events_clear c → _orderbook_update_events c' = _orderbook_update_events c →
  events_clear c'.
Proof. intros Hc Heq market flag. rewrite Heq. apply Hc. Qed.

Lemma wait_for_orderbook_update_clear market timeout c :
  events_clear c → events_clear (wait_for_orderbook_update market timeout c).
Proof.
  intros Hc. unfold wait_for_orderbook_update. apply event_wait_clear.
  apply (events_clear_same c); [exact Hc|apply subscribe_if_absent_events].
Qed.

Lemma call_clear ts op c : events_clear c → events_clear (call ts op c).
Proof.
  intros Hc.
  destruct op as [| |market|market|market|market timeout]; cbn [call].
  - apply (events_clear_same c); [exact Hc|].
    unfold get_fills. cbn [fst]. rewrite subscribe_if_absent_events.
    by destruct (_logged_in c).
  - apply (events_clear_same c); [exact Hc|].
    unfold get_orders. cbn [fst]. rewrite subscribe_if_absent_events.
    by destruct (_logged_in c).
  - apply (events_clear_same c); [exact Hc|].
    unfold get_trades. client_simpl. apply subscribe_if_absent_events.
  - unfold get_orderbook. cbn [fst].
    set (c1 := subscribe_if_absent _ c).
    set (c2 := set_timestamps c1 _).
    assert (events_clear c2) as H2.
    { apply (events_clear_same c); [exact Hc|]. subst c2 c1. client_simpl.
      apply subscribe_if_absent_events. }
    case_decide.
    + apply (events_clear_same (wait_for_orderbook_update market 5 c2)); [|reflexivity].
      by apply wait_for_orderbook_update_clear.
    + by apply (events_clear_same c2).
  - apply (events_clear_same c); [exact Hc|].
    unfold get_ticker. client_simpl. apply subscribe_if_absent_events.
  - by apply wait_for_orderbook_update_clear.
Qed.

Lemma handle_orderbook_clear message c c' :
  events_clear c →
  _handle_orderbook_message message c = Ok c' →
  events_clear c'.
Proof.
  intros Hc (market & data & c1 & _ & _ & Happly & ->)%handle_orderbook_inv.
  assert (events_clear c1) as H1.
  { rewrite (apply_orderbook_data_shape _ _ _ _ Happly). exact Hc. }
  pose proof (call_clear 0 (GetOrderbook market) c1 H1) as H2.
  destruct (verify_checksum_cases market data c1) as [-> | ->].
  - by apply (events_clear_same (call 0 (GetOrderbook market) c1)).
  - intros market' flag. unfold event_pulse. client_simpl.
    destruct (decide (market = market')) as [->|Hne].
    + rewrite lookup_insert_eq. by intros [= <-].
    + rewrite lookup_insert_ne by done. apply H2.
Qed.

Lemma step_clear i c c' : events_clear c → step i c = Ok c' → events_clear c'.
Proof.
  intros Hc. destruct i as [m|ts op|]; cbn [step].
  - apply on_message_keeps; try done.
    intros c1. by apply handle_orderbook_clear.
  - intros [= <-]. by apply call_clear.
  - intros [= <-] market flag. cbn. by rewrite lookup_empty.
Qed.

(** The update events are pulses: whatever messages arrive and whatever is
    called, in whatever order, every event the client holds is unset after
    each step, so a later waiter never finds a signal left behind. *)
Theorem update_events_never_left_set
    (k secret : string) (inputs : list input) (c : client) (market : string) :
  steps inputs (init k secret) = Ok c →
  _orderbook_update_events c !! market = None ∨
  _orderbook_update_events c !! market = Some false.
Proof.
  intros Hsteps.
  assert (events_clear c) as Hc.
  { revert Hsteps. apply (steps_invariant events_clear); [apply step_clear|].
    intros market' flag. cbn. by rewrite lookup_empty. }
  destruct (_orderbook_update_events c !! market) as [flag|] eqn:Hf; [|by left].
  right. by rewrite (Hc market flag Hf).
Qed.

(** The theorem on the sample session. *)
Lemma update_events_never_left_set_witness :
  ∃ c, steps sample_session (init "" "") = Ok c ∧
       (_orderbook_update_events c !! "BTC-PERP" = None ∨
        _orderbook_update_events c !! "BTC-PERP" = Some false).
Proof.
  eexists.
  assert (steps sample_session (init "" "") = Ok _) as H by (vm_compute; reflexivity).
  split; [exact H|]. exact (update_events_never_left_set _ _ _ _ _ H).
Defined.

(** *** No stored size is 0 *)

Lemma apply_levels_nonzero levels (b b' : gmap Z Z) :
  (∀ price size, b !! price = Some size → size ≠ 0) →
  apply_levels levels b = Ok b' →
  ∀ price size, b' !! price = Some size → size ≠ 0.
Proof.
  revert b. induction levels as [|[p q] levels IH]; intros b Hb; cbn [apply_levels].
  - by intros [= <-].
  - case_decide as Hz.
    + apply IH. intros price size.
      destruct (decide (p = price)) as [->|Hne].
      * rewrite lookup_insert_eq. by intros [= <-].
      * rewrite lookup_insert_ne by done. apply Hb.
    + destruct (b !! p) eqn:Hp; [|done].
      apply IH. intros price size.
      destruct (decide (p = price)) as [->|Hne].
      * by rewrite lookup_delete_eq.
      * rewrite lookup_delete_ne by done. apply Hb.
Qed.

Lemma empty_book_nonzero s price size :
  book_side s empty_book !! price = Some size → size ≠ 0.
Proof. destruct s; cbn; by rewrite lookup_empty. Qed.

Lemma default_book_nonzero c market :
  books_nonzero c →
  ∀ s price size,
    book_side s (default empty_book (_orderbooks c !! market)) !! price = Some size →
    size ≠ 0.
Proof.
  intros Hc s price size.
  destruct (_orderbooks c !! market) as [b|] eqn:Hb; cbn [default id].
  - by apply (Hc market b s).
  - apply empty_book_nonzero.
Qed.

Lemma apply_side_nonzero market data s c c' :
  books_nonzero c → apply_side market data s c = Ok c' → books_nonzero c'.
Proof.
  intros Hc. unfold apply_side.
  pose proof (default_book_nonzero c market Hc) as Hb.
  set (b := default empty_book (_orderbooks c !! market)) in *.
  destruct (apply_levels _ _) as [levels|] eqn:Hl; cbn [mbind result_bind]; [|done].
  intros [= <-] market' b' s' price size. client_simpl.
  destruct (decide (market = market')) as [->|Hne].
  - rewrite lookup_insert_eq. intros [= <-].
    destruct s, s'; cbn [set_book_side book_side book_bids book_asks].
    + by eapply apply_levels_nonzero; [apply (Hb Bids)|exact Hl].
    + apply (Hb Asks).
    + apply (Hb Bids).
    + by eapply apply_levels_nonzero; [apply (Hb Asks)|exact Hl].
  - rewrite lookup_insert_ne by done. apply Hc.
Qed.

Lemma books_nonzero_sub c c' :
  books_nonzero c →
  (∀ market b, _orderbooks c' !! market = Some b →
               _orderbooks c !! market = Some b ∨ b = empty_book) →
  books_nonzero c'.
Proof.
  intros Hc Hsub market b s price size Hb.
  destruct (Hsub market b Hb) as [Hold | ->].
  - by apply (Hc market b s).
  - apply empty_book_nonzero.
Qed.

Lemma subscribe_if_absent_orderbooks sub c :
  _orderbooks (subscribe_if_absent sub c) = _orderbooks c.
Proof. unfold subscribe_if_absent. by case_decide. Qed.

(** A read operation leaves the books as they are, but for the empty book
    [get_orderbook] creates for a market that has none. *)
Lemma call_orderbooks ts op c market b :
  _orderbooks (call ts op c) !! market = Some b →
  _orderbooks c !! market = Some b ∨ b = empty_book.
Proof.
  destruct op as [| |m|m|m|m timeout]; cbn [call].
  - unfold get_fills. cbn [fst]. rewrite subscribe_if_absent_orderbooks.
    destruct (_logged_in c); by left.
  - unfold get_orders. cbn [fst]. rewrite subscribe_if_absent_orderbooks.
    destruct (_logged_in c); by left.
  - unfold get_trades. client_simpl. rewrite subscribe_if_absent_orderbooks. by left.
  - unfold get_orderbook. cbn [fst].
    set (c1 := subscribe_if_absent _ c).
    set (c2 := if decide _ then _ else _).
    assert (_orderbooks c2 = _orderbooks c) as H2.
    { subst c2. case_decide.
      - unfold wait_for_orderbook_update, event_wait. client_simpl.
        rewrite subscribe_if_absent_orderbooks. client_simpl.
        apply subscribe_if_absent_orderbooks.
      - client_simpl. apply subscribe_if_absent_orderbooks. }
    client_simpl. rewrite H2.
    destruct (decide (m = market)) as [->|Hne].
    + rewrite lookup_insert_eq. intros [= <-].
      destruct (_orderbooks c !! market); cbn [default id]; [by left|by right].
    + rewrite lookup_insert_ne by done. by left.
  - unfold get_ticker. client_simpl. rewrite subscribe_if_absent_orderbooks. by left.
  - unfold wait_for_orderbook_update, event_wait. client_simpl.
    rewrite subscribe_if_absent_orderbooks. by left.
Qed.

Lemma call_nonzero ts op c : books_nonzero c → books_nonzero (call ts op c).
Proof. intros Hc. apply (books_nonzero_sub c); [exact Hc|apply call_orderbooks]. Qed.

Lemma handle_orderbook_nonzero message c c' :
  books_nonzero c →
  _handle_orderbook_message message c = Ok c' →
  books_nonzero c'.
Proof.
  intros Hc (market & data & c1 & _ & _ & Happly & ->)%handle_orderbook_inv.
  assert (books_nonzero c1) as H1.
  { revert Happly. unfold apply_orderbook_data.
    set (c0 := if decide (action data = "partial") then _ else _).
    assert (books_nonzero c0) as H0.
    { subst c0. case_decide; [|exact Hc].
      apply (books_nonzero_sub c); [exact Hc|].
      intros m b. unfold _reset_orderbook. client_simpl.
      intros [_ ?]%lookup_delete_Some. by left. }
    destruct (apply_side market data Bids c0) as [ca|] eqn:Ha;
      cbn [mbind result_bind]; [|done].
    apply apply_side_nonzero. by eapply apply_side_nonzero. }
  pose proof (call_nonzero 0 (GetOrderbook market) c1 H1) as H2.
  destruct (verify_checksum_cases market data c1) as [-> | ->].
  - apply (books_nonzero_sub (call 0 (GetOrderbook market) c1)); [exact H2|].
    intros m b. unfold on_mismatch, _subscribe, send_json. client_simpl.
    change (_orderbooks (_unsubscribe ?s ?x)) with (_orderbooks x).
    unfold _reset_orderbook. client_simpl.
    intros [_ ?]%lookup_delete_Some. by left.
  - apply (books_nonzero_sub (call 0 (GetOrderbook market) c1)); [exact H2|].
    intros m b. by left.
Qed.

Lemma step_nonzero i c c' : books_nonzero c → step i c = Ok c' → books_nonzero c'.
Proof.
  intros Hc. destruct i as [m|ts op|]; cbn [step].
  - apply on_message_keeps; try done.
    intros c1. by apply handle_orderbook_nonzero.
  - intros [= <-]. by apply call_nonzero.
  - intros [= <-] market b s price size. cbn. by rewrite lookup_empty.
Qed.

(** A size of 0 never persists in a book, so the filter of [get_orderbook]
    drops nothing: whatever messages arrive and whatever is called, the
    levels it returns for a side are the stored levels of that side, all of
    them, in sorted order. *)
Theorem get_orderbook_returns_every_stored_level
    (k secret : string) (inputs : list input) (c : client) (market : string)
    (s : side) :
  steps inputs (init k secret) = Ok c →
  (get_orderbook market c).2 s
  ≡ₚ map_to_list (book_side s (default empty_book (_orderbooks c !! market))) ∧
  ∀ price size,
    book_side s (default empty_book (_orderbooks c !! market)) !! price = Some size →
    size ≠ 0 ∧ (price, size) ∈ (get_orderbook market c).2 s.
Proof.
  intros Hsteps.
  assert (books_nonzero c) as Hc.
  { revert Hsteps. apply (steps_invariant books_nonzero); [apply step_nonzero|].
    intros m b s' price size. cbn. by rewrite lookup_empty. }
  pose proof (default_book_nonzero c market Hc s) as Hb.
  rewrite get_orderbook_result.
  set (b := default empty_book (_orderbooks c !! market)) in *.
  assert (filter (λ order : Z * Z, order.2 ≠ 0) (map_to_list (book_side s b))
          = map_to_list (book_side s b)) as Hfilter.
  { apply filter_all, Forall_forall. intros [price size] Hin.
    apply elem_of_map_to_list in Hin. by apply (Hb price). }
  split.
  - unfold side_levels. rewrite Hfilter. apply sorted_permutation.
  - intros price size Hlook. split; [by apply (Hb price)|].
    destruct (side_levels_is_side_of s b) as [_ Hmem].
    apply Hmem. split; [exact Hlook|by apply (Hb price)].
Qed.

(** The theorem on the sample session. *)
Lemma get_orderbook_returns_every_stored_level_witness :
  ∃ c, steps sample_session (init "" "") = Ok c ∧
       (get_orderbook "BTC-PERP" c).2 Bids
       ≡ₚ map_to_list (book_side Bids (default empty_book (_orderbooks c !! "BTC-PERP"))) ∧
       ∀ price size,
         book_side Bids (default empty_book (_orderbooks c !! "BTC-PERP")) !! price
         = Some size →
         size ≠ 0 ∧ (price, size) ∈ (get_orderbook "BTC-PERP" c).2 Bids.
Proof.
  eexists.
  assert (steps sample_session (init "" "") = Ok _) as H by (vm_compute; reflexivity).
  split; [exact H|].
  exact (get_orderbook_returns_every_stored_level _ _ _ _ "BTC-PERP" Bids H).
Defined.

(** ** The levels of one message *)

Lemma apply_levels_app l1 l2 (b : gmap Z Z) :
  apply_levels (l1 ++ l2) b = apply_levels l1 b ≫= apply_levels l2.
Proof.
  revert b. induction l1 as [|[p q] l1 IH]; intros b; [done|].
  cbn [app apply_levels]. case_decide; [apply IH|].
  destruct (b !! p); [apply IH|done].
Qed.

(** Within one message the last level at a price decides: the price ends
    with that level's size, or out of the book when that size is 0; a price
    the message does not mention keeps what it had. *)
Theorem apply_levels_last_level_wins
    (levels : list (Z * Z)) (b b' : gmap Z Z) (price : Z) :
  apply_levels levels b = Ok b' →
  b' !! price = match last_size price levels with
                | Some size => if decide (size = 0) then None else Some size
                | None => b !! price
                end.
Proof.
  revert b. induction levels as [|[p q] levels IH]; intros b; cbn [apply_levels last_size].
  - by intros [= <-].
  - case_decide as Hq.
    + intros H. rewrite (IH _ H).
      destruct (last_size price levels); [done|].
      case_decide as Hp.
      * subst p. rewrite lookup_insert_eq. by rewrite decide_False.
      * by rewrite lookup_insert_ne.
    + destruct (b !! p) eqn:Hbp; [|done].
      intros H. rewrite (IH _ H).
      destruct (last_size price levels); [done|].
      case_decide as Hp.
      * subst p. rewrite lookup_delete_eq. rewrite decide_True; [done|lia].
      * by rewrite lookup_delete_ne.
Qed.

(** The theorem on the diff of the scenario, for the price it removes. *)
Lemma apply_levels_last_level_wins_witness :
  ∃ b', apply_levels (bids scenario_update) {[100 := 1; 99 := 2]} = Ok b' ∧
        b' !! 100 = match last_size 100 (bids scenario_update) with
                    | Some size => if decide (size = 0) then None else Some size
                    | None => ({[100 := 1; 99 := 2]} : gmap Z Z) !! 100
                    end.
Proof.
  eexists.
  assert (apply_levels (bids scenario_update) {[100 := 1; 99 := 2]} = Ok _) as H
    by (vm_compute; reflexivity).
  split; [exact H|]. exact (apply_levels_last_level_wins _ _ _ 100 H).
Defined.

(** The levels of a message fail to apply exactly when one of them carries
    size 0 for a price that is not in the book at that point of the
    message; the exception is then [KeyError] and no other. *)
Theorem apply_levels_raises_iff_removing_absent_price
    (levels : list (Z * Z)) (b : gmap Z Z) (e : exn) :
  apply_levels levels b = Raise e ↔
  e = KeyError ∧
  ∃ before price after b1,
    levels = before ++ (price, 0) :: after ∧
    apply_levels before b = Ok b1 ∧
    b1 !! price = None.
Proof.
  split.
  - revert b. induction levels as [|[p q] levels IH]; intros b; cbn [apply_levels];
      [done|].
    case_decide as Hq.
    + intros (-> & before & price & after & b1 & -> & Hb1 & Hnone)%IH.
      split; [done|]. exists ((p, q) :: before), price, after, b1.
      split; [done|]. split; [|done]. cbn [apply_levels]. by rewrite decide_True.
    + assert (q = 0) as -> by lia.
      destruct (b !! p) eqn:Hbp.
      * intros (-> & before & price & after & b1 & -> & Hb1 & Hnone)%IH.
        split; [done|]. exists ((p, 0) :: before), price, after, b1.
        split; [done|]. split; [|done]. cbn [apply_levels].
        rewrite decide_False by lia. by rewrite Hbp.
      * intros [= <-]. split; [done|]. by exists [], p, levels, b.
  - intros (-> & before & price & after & b1 & -> & Hb1 & Hnone).
    rewrite apply_levels_app, Hb1. cbn [mbind result_bind apply_levels].
    rewrite decide_False by lia. by rewrite Hnone.
Qed.

(** *** What an orderbook message leaves alone *)

Lemma same_off_market_refl market c : same_off_market market c c.
Proof. by repeat split. Qed.

Lemma same_off_market_trans market c1 c2 c3 :
  same_off_market market c1 c2 → same_off_market market c2 c3 →
  same_off_market market c1 c3.
Proof.
  intros (H12 & ? & ? & ? & ? & ? & ? & ?) (H23 & ? & ? & ? & ? & ? & ? & ?).
  split; [|repeat split; congruence].
  intros other Hne. destruct (H12 other Hne) as (? & ? & ?).
  destruct (H23 other Hne) as (? & ? & ?). repeat split; congruence.
Qed.

Lemma subscribe_if_absent_same market sub c :
  same_off_market market c (subscribe_if_absent sub c).
Proof. unfold subscribe_if_absent. case_decide; by repeat split. Qed.

Lemma insert_same_off_market market c ob ts ev :
  same_off_market market c
    (set_events (set_timestamps (set_orderbooks c (<[market := ob]> (_orderbooks c)))
                                (<[market := ts]> (_orderbook_timestamps c)))
                (<[market := ev]> (_orderbook_update_events c))).
Proof.
  split; [|by repeat split]. intros other Hne. client_simpl.
  by rewrite !lookup_insert_ne.
Qed.

Lemma get_orderbook_same market c :
  same_off_market market c (get_orderbook market c).1.
Proof.
  unfold get_orderbook. cbn [fst].
  set (c1 := subscribe_if_absent _ c).
  apply (same_off_market_trans market c c1); [apply subscribe_if_absent_same|].
  set (c2 := set_timestamps c1 _).
  assert (same_off_market market c1 c2) as H12.
  { split; [|by repeat split]. intros other Hne. subst c2. client_simpl.
    by rewrite lookup_insert_ne. }
  case_decide.
  - unfold wait_for_orderbook_update.
    set (c3 := subscribe_if_absent _ c2).
    assert (same_off_market market c2 c3) as H23 by apply subscribe_if_absent_same.
    apply (same_off_market_trans market c1 c3);
      [by apply (same_off_market_trans market c1 c2)|].
    split; [|by repeat split]. intros other Hne. unfold event_wait. client_simpl.
    by rewrite !lookup_insert_ne.
  - apply (same_off_market_trans market c1 c2); [exact H12|].
    split; [|by repeat split]. intros other Hne. client_simpl.
    by rewrite !lookup_insert_ne.
Qed.

Lemma apply_side_same market data s c c' :
  apply_side market data s c = Ok c' → same_off_market market c c'.
Proof.
  unfold apply_side. destruct (apply_levels _ _); cbn [mbind result_bind]; [|done].
  intros [= <-]. split; [|by repeat split]. intros other Hne. client_simpl.
  by rewrite !lookup_insert_ne.
Qed.

Lemma reset_orderbook_same market c :
  same_off_market market c (_reset_orderbook market c).
Proof.
  split; [|by repeat split]. intros other Hne. unfold _reset_orderbook. client_simpl.
  by rewrite !lookup_delete_ne.
Qed.

(** An orderbook message touches nothing of another market: the other
    books, timestamps and update events, the trade and fill buffers, the
    ticker and order caches, the credentials and the logged-in flag are
    after it what they were before, whether its checksum matches or not. *)
Theorem orderbook_message_leaves_other_markets
    (message : message) (market other : string) (c c' : client) :
  msg_market message = Some market →
  _handle_orderbook_message message c = Ok c' →
  other ≠ market →
  _orderbooks c' !! other = _orderbooks c !! other ∧
  _orderbook_timestamps c' !! other = _orderbook_timestamps c !! other ∧
  _orderbook_update_events c' !! other = _orderbook_update_events c !! other ∧
  _trades c' = _trades c ∧ _fills c' = _fills c ∧
  _tickers c' = _tickers c ∧ _orders c' = _orders c ∧
  _logged_in c' = _logged_in c.
Proof.
  intros Hmarket (m & data & c1 & Hm & _ & Happly & ->)%handle_orderbook_inv Hne.
  assert (m = market) as -> by congruence.
  assert (same_off_market market c c1) as H1.
  { revert Happly. unfold apply_orderbook_data.
    set (c0 := if decide (action data = "partial") then _ else _).
    assert (same_off_market market c c0) as H0.
    { subst c0. case_decide;
        [apply reset_orderbook_same|apply same_off_market_refl]. }
    destruct (apply_side market data Bids c0) as [ca|] eqn:Ha;
      cbn [mbind result_bind]; [|done].
    intros Hb. apply apply_side_same in Ha, Hb.
    apply (same_off_market_trans market c c0 c1 H0).
    by apply (same_off_market_trans market c0 ca c1). }
  set (c2 := call 0 (GetOrderbook market) c1).
  assert (same_off_market market c c2) as H2.
  { apply (same_off_market_trans market c c1 c2 H1). apply get_orderbook_same. }
  assert (same_off_market market c (verify_checksum market data c1)) as Hsame.
  { destruct (verify_checksum_cases market data c1) as [-> | ->]; fold c2.
    - apply (same_off_market_trans market c c2 _ H2).
      unfold on_mismatch.
      apply (same_off_market_trans market c2
               (_reset_orderbook market (set_last_received c2 0))).
      + apply (same_off_market_trans market c2 (set_last_received c2 0));
          [by repeat split|apply reset_orderbook_same].
      + by repeat split.
    - apply (same_off_market_trans market c c2 _ H2).
      split; [|by repeat split]. intros o Ho. unfold event_pulse. client_simpl.
      by rewrite lookup_insert_ne. }
  destruct Hsame as (Hoff & ? & ? & ? & ? & ? & _).
  destruct (Hoff other Hne) as (? & ? & ?). by repeat split.
Qed.

(** The theorem on a snapshot for ETH-PERP received after the scenario's
    snapshot for BTC-PERP. *)
Lemma orderbook_message_leaves_other_markets_witness :
  ∃ c c',
    _on_message (orderbook_message "BTC-PERP" scenario_partial) (init "" "") = Ok c ∧
    _handle_orderbook_message (orderbook_message "ETH-PERP" eth_partial) c = Ok c' ∧
    _orderbooks c' !! "BTC-PERP" = _orderbooks c !! "BTC-PERP" ∧
    _orderbook_timestamps c' !! "BTC-PERP" = _orderbook_timestamps c !! "BTC-PERP" ∧
    _orderbook_update_events c' !! "BTC-PERP" = _orderbook_update_events c !! "BTC-PERP" ∧
    _trades c' = _trades c ∧ _fills c' = _fills c ∧
    _tickers c' = _tickers c ∧ _orders c' = _orders c ∧
    _logged_in c' = _logged_in c.
Proof.
  do 2 eexists. split; [vm_compute; reflexivity|].
  match goal with
  | |- _handle_orderbook_message ?m ?c = Ok _ ∧ _ =>
      assert (_handle_orderbook_message m c = Ok _) as H by (vm_compute; reflexivity)
  end.
  split; [exact H|].
  apply (orderbook_message_leaves_other_markets
           (orderbook_message "ETH-PERP" eth_partial) "ETH-PERP" "BTC-PERP" _ _
           eq_refl H).
  discriminate.
Defined.

(** ** The marker, the login and the reconnection *)

Lemma call_last_received ts op c :
  _last_received_orderbook_data_at (call ts op c)
  = _last_received_orderbook_data_at c.
Proof.
  destruct op; cbn [call]; unfold_ops; cbn [fst];
    repeat case_decide; try destruct (_logged_in c); reflexivity.
Qed.

(** The last-data-received marker is only ever assigned 0: whatever the
    client receives and whatever is called, it is 0 at all times, also
    after orderbook data has arrived with a matching checksum. *)
Theorem last_received_marker_is_always_zero
    (k secret : string) (inputs : list input) (c : client) :
  steps inputs (init k secret) = Ok c →
  _last_received_orderbook_data_at c = 0.
Proof.
  apply (steps_invariant (λ c, _last_received_orderbook_data_at c = 0)); [|done].
  intros i c0 c1 H0. destruct i as [m|ts op|]; cbn [step].
  - apply (on_message_keeps (λ c, _last_received_orderbook_data_at c = 0));
      try done.
    intros c2 (market & data & c3 & _ & _ & Happly & ->)%handle_orderbook_inv.
    destruct (verify_checksum_cases market data c3) as [-> | ->]; [reflexivity|].
    change (_last_received_orderbook_data_at (call 0 (GetOrderbook market) c3) = 0).
    rewrite call_last_received.
    by rewrite (apply_orderbook_data_shape _ _ _ _ Happly).
  - intros [= <-]. by rewrite call_last_received.
  - by intros [= <-].
Qed.

(** The theorem on the sample session. *)
Lemma last_received_marker_is_always_zero_witness :
  ∃ c, steps sample_session (init "" "") = Ok c ∧
       _last_received_orderbook_data_at c = 0.
Proof.
  eexists.
  assert (steps sample_session (init "" "") = Ok _) as H by (vm_compute; reflexivity).
  split; [exact H|]. exact (last_received_marker_is_always_zero _ _ _ _ H).
Defined.

Lemma login_frames_app tr1 tr2 :
  login_frames (tr1 ++ tr2) = login_frames tr1 ++ login_frames tr2.
Proof. apply omap_app. Qed.

Lemma subscribe_if_absent_login sub c :
  login_frames (_trace (subscribe_if_absent sub c)) = login_frames (_trace c) ∧
  _logged_in (subscribe_if_absent sub c) = _logged_in c.
Proof.
  unfold subscribe_if_absent. case_decide; [done|].
  unfold _subscribe, send_json. client_simpl.
  rewrite login_frames_app. cbn. by rewrite app_nil_r.
Qed.

Lemma private_getter_login ts sub c :
  let c1 := if _logged_in c then c else _login ts c in
  ∃ extra, login_frames (_trace (subscribe_if_absent sub c1))
           = login_frames (_trace c) ++ extra ∧
           login_step extra c (subscribe_if_absent sub c1).
Proof.
  intros c1. unfold login_step.
  destruct (subscribe_if_absent_login sub c1) as [-> ->]. subst c1.
  destruct (_logged_in c) eqn:Hl.
  - exists []. rewrite app_nil_r. split; [done|]. by left.
  - exists [ts]. split.
    + unfold _login, send_json. client_simpl. by rewrite login_frames_app.
    + right. by exists ts.
Qed.

Lemma get_orderbook_login market c :
  login_frames (_trace (get_orderbook market c).1) = login_frames (_trace c) ∧
  _logged_in (get_orderbook market c).1 = _logged_in c.
Proof.
  unfold get_orderbook. cbn [fst].
  set (c1 := subscribe_if_absent _ c).
  destruct (subscribe_if_absent_login (Subscription "orderbook" (Some market)) c)
    as [Hf Hl]. fold c1 in Hf, Hl.
  set (c2 := set_timestamps c1 _).
  case_decide.
  - unfold wait_for_orderbook_update, event_wait. client_simpl.
    destruct (subscribe_if_absent_login (Subscription "orderbook" (Some market)) c2)
      as [Hf2 Hl2].
    rewrite login_frames_app, Hf2, Hl2. cbn. rewrite app_nil_r. by split.
  - client_simpl. by split.
Qed.

Lemma call_login ts op c :
  ∃ extra, login_frames (_trace (call ts op c)) = login_frames (_trace c) ++ extra ∧
           login_step extra c (call ts op c).
Proof.
  destruct op as [| |market|market|market|market timeout]; cbn [call].
  - apply (private_getter_login ts (Subscription "fills" None) c).
  - apply (private_getter_login ts (Subscription "orders" None) c).
  - exists []. rewrite app_nil_r. unfold get_trades. client_simpl.
    destruct (subscribe_if_absent_login (Subscription "trades" (Some market)) c)
      as [-> Hl].
    split; [done|]. left. by split.
  - exists []. rewrite app_nil_r.
    destruct (get_orderbook_login market c) as [Hf Hl].
    split; [exact Hf|]. left. by split.
  - exists []. rewrite app_nil_r. unfold get_ticker. client_simpl.
    destruct (subscribe_if_absent_login (Subscription "ticker" (Some market)) c)
      as [-> Hl].
    split; [done|]. left. by split.
  - exists []. rewrite app_nil_r.
    unfold login_step, wait_for_orderbook_update, event_wait. client_simpl.
    destruct (subscribe_if_absent_login (Subscription "orderbook" (Some market)) c)
      as [Hf Hl].
    rewrite login_frames_app, Hf, Hl. cbn. rewrite app_nil_r.
    split; [done|]. left. by split.
Qed.

(** The dispatcher, case by case, for a property that looks at the trace. *)
Lemma on_message_keeps_traced (P : client → Prop) message c c' :
  (∀ c1, _handle_orderbook_message message c = Ok c1 → P c1) →
  (∀ v, P (set_trades c v)) →
  (∀ v, P (set_tickers c v)) →
  (∀ v, P (set_fills c v)) →
  (∀ v, P (set_orders c v)) →
  P (reconnect c) →
  P c →
  _on_message message c = Ok c' → P c'.
Proof.
  intros Hbook Htrades Htickers Hfills Horders Hreconnect Hc.
  assert (dispatch_channel message c = Ok c' → P c') as Hdispatch.
  { unfold dispatch_channel.
    destruct (msg_channel message) as [channel|]; [|done].
    repeat case_decide.
    - apply Hbook.
    - unfold _handle_trades_message.
      destruct (msg_market message); [|done]. destruct (msg_data message); [|done].
      intros [= <-]. apply Htrades.
    - unfold _handle_ticker_message.
      destruct (msg_market message); [|done]. destruct (msg_data message); [|done].
      intros [= <-]. apply Htickers.
    - unfold _handle_fills_message. destruct (msg_data message); [|done].
      intros [= <-]. apply Hfills.
    - unfold _handle_orders_message. destruct (msg_data message) as [[| |]|]; try done.
      intros [= <-]. apply Horders.
    - by intros [= <-]. }
  unfold _on_message.
  destruct (msg_type message) as [message_type|]; [|done].
  repeat case_decide; try done.
  - by intros [= <-].
  - destruct (msg_code message) as [code|]; [|done]. case_decide; [|done].
    by intros [= <-].
Qed.

Lemma on_message_login message c c' :
  _on_message message c = Ok c' →
  login_frames (_trace c') = login_frames (_trace c) ∧ _logged_in c' = _logged_in c.
Proof.
  apply (on_message_keeps_traced
           (λ c', login_frames (_trace c') = login_frames (_trace c) ∧
                  _logged_in c' = _logged_in c)); try done.
  - intros c1 (market & data & c2 & _ & _ & Happly & ->)%handle_orderbook_inv.
    assert (login_frames (_trace c2) = login_frames (_trace c) ∧
            _logged_in c2 = _logged_in c) as [Hf2 Hl2].
    { by rewrite (apply_orderbook_data_shape _ _ _ _ Happly). }
    destruct (get_orderbook_login market c2) as [Hf3 Hl3].
    destruct (verify_checksum_cases market data c2) as [-> | ->]; cbn [call].
    + unfold on_mismatch, _subscribe, _unsubscribe, send_json, _reset_orderbook.
      client_simpl. rewrite !login_frames_app. cbn [login_frames omap].
      rewrite !app_nil_r. split; congruence.
    + unfold event_pulse. client_simpl. split; congruence.
  - unfold reconnect. client_simpl. rewrite login_frames_app. cbn.
    by rewrite app_nil_r.
Qed.

Lemma step_login i c c' :
  i ≠ Opened → step i c = Ok c' →
  ∃ extra, login_frames (_trace c') = login_frames (_trace c) ++ extra ∧
           login_step extra c c'.
Proof.
  intros Hi. destruct i as [m|ts op|]; [| |done]; cbn [step].
  - intros [Hf Hl]%on_message_login. exists []. rewrite app_nil_r.
    split; [exact Hf|]. by left.
  - intros [= <-]. apply call_login.
Qed.

(** On one connection the client logs in at most once: however many times
    the private getters are called, and whatever arrives in between, the
    login frames sent are none when the logged-in flag ends as it began,
    and exactly one, sent while the flag was off, when it ends set. *)
Theorem private_getters_login_once (inputs : list input) (c c' : client) :
  Forall (λ i, i ≠ Opened) inputs →
  steps inputs c = Ok c' →
  ∃ extra, login_frames (_trace c') = login_frames (_trace c) ++ extra ∧
           ((extra = [] ∧ _logged_in c' = _logged_in c) ∨
            (∃ t, extra = [t] ∧ _logged_in c = false ∧ _logged_in c' = true)).
Proof.
  intros Hall. revert c. induction Hall as [|i inputs Hi _ IH]; intros c; cbn [steps].
  - intros [= <-]. exists []. rewrite app_nil_r. split; [done|]. by left.
  - destruct (step i c) as [c1|] eqn:H1; cbn [mbind result_bind]; [|done].
    intros Hrest.
    destruct (step_login i c c1 Hi H1) as (e1 & Hf1 & Hs1).
    destruct (IH c1 Hrest) as (e2 & Hf2 & Hs2).
    exists (e1 ++ e2). rewrite Hf2, Hf1, <- app_assoc. split; [done|].
    destruct Hs1 as [[-> Hl1] | (t & -> & Hfalse & Htrue)].
    + destruct Hs2 as [[-> Hl2] | (t & -> & Hfalse & Htrue)].
      * left. split; [done|congruence].
      * right. exists t. split; [done|]. split; congruence.
    + destruct Hs2 as [[-> Hl2] | (t' & -> & Hfalse' & _)]; [|congruence].
      right. exists t. split; [done|]. split; congruence.
Qed.

(** The theorem on two calls of [get_fills] and one of [get_orders] on a
    new client. *)
Lemma private_getters_login_once_witness :
  ∃ c' extra,
    steps private_session (init "" "") = Ok c' ∧
    login_frames (_trace c') = login_frames (_trace (init "" "")) ++ extra ∧
    ((extra = [] ∧ _logged_in c' = _logged_in (init "" "")) ∨
     (∃ t, extra = [t] ∧ _logged_in (init "" "") = false ∧ _logged_in c' = true)).
Proof.
  eexists.
  assert (steps private_session (init "" "") = Ok _) as H by (vm_compute; reflexivity).
  destruct (private_getters_login_once private_session _ _
              ltac:(repeat constructor; discriminate) H) as (extra & Hrest).
  exists extra. split; [exact H|exact Hrest].
Defined.

(** [_on_open] sends nothing and forgets every subscription and the login:
    after it, the first call of any read operation sends its subscribe
    frame again, whatever was subscribed before, and the first private
    getter logs in again. Nothing is resubscribed on its own. *)
Theorem reopened_connection_resubscribes_on_next_read
    (ts : Z) (op : read_op) (c : client) :
  _trace (_on_open c) = _trace c ∧
  subscribe_frames (_trace (call ts op (_on_open c)))
  = subscribe_frames (_trace c) ++ [op_subscription op] ∧
  _subscriptions (call ts op (_on_open c)) = [op_subscription op] ∧
  login_frames (_trace (call ts op (_on_open c)))
  = login_frames (_trace c) ++
    match op with GetFills | GetOrders => [ts] | _ => [] end.
Proof.
  split; [reflexivity|].
  destruct (call_once ts op (_on_open c)) as [Hf Hs].
  assert (added (op_subscription op) (_on_open c) = [op_subscription op]) as Hadd.
  { unfold added. rewrite decide_False; [done|]. cbn. apply not_elem_of_nil. }
  rewrite Hadd in Hf, Hs. split; [exact Hf|]. split; [exact Hs|].
  change (login_frames (_trace c)) with (login_frames (_trace (_on_open c))).
  destruct op as [| |market|market|market|market timeout]; cbn [call].
  - unfold get_fills. cbn [fst].
    rewrite (proj1 (subscribe_if_absent_login _ _)).
    change (_logged_in (_on_open c)) with false. cbv iota.
    unfold _login, send_json. client_simpl. by rewrite login_frames_app.
  - unfold get_orders. cbn [fst].
    rewrite (proj1 (subscribe_if_absent_login _ _)).
    change (_logged_in (_on_open c)) with false. cbv iota.
    unfold _login, send_json. client_simpl. by rewrite login_frames_app.
  - unfold get_trades. client_simpl.
    by rewrite (proj1 (subscribe_if_absent_login _ _)), app_nil_r.
  - by rewrite (proj1 (get_orderbook_login _ _)), app_nil_r.
  - unfold get_ticker. client_simpl.
    by rewrite (proj1 (subscribe_if_absent_login _ _)), app_nil_r.
  - unfold wait_for_orderbook_update, event_wait. client_simpl.
    rewrite login_frames_app, (proj1 (subscribe_if_absent_login _ _)).
    reflexivity.
Qed.

(** ** After the checksum *)

Lemma on_mismatch_fields market c :
  _orderbooks (on_mismatch market c) !! market = None ∧
  _orderbook_timestamps (on_mismatch market c) !! market = None ∧
  orderbook_sub market ∈ _subscriptions (on_mismatch market c).
Proof.
  unfold on_mismatch, _subscribe, send_json. client_simpl.
  change (_orderbooks (_unsubscribe ?s ?x)) with (_orderbooks x).
  change (_orderbook_timestamps (_unsubscribe ?s ?x)) with (_orderbook_timestamps x).
  unfold _reset_orderbook. client_simpl.
  rewrite !lookup_delete_eq. split; [done|]. split; [done|].
  apply elem_of_app. right. by apply list_elem_of_singleton.
Qed.

(** A read of a market that is subscribed but has neither book nor
    timestamp: one wait of 5, no frame, empty sides. *)
Lemma get_orderbook_subscribed_no_data market c :
  orderbook_sub market ∈ _subscriptions c →
  _orderbooks c !! market = None →
  _orderbook_timestamps c !! market = None →
  _trace (get_orderbook market c).1 = _trace c ++ [Waited market 5] ∧
  ∀ s, (get_orderbook market c).2 s = [].
Proof.
  intros Hsub Hbook Hts. split.
  - unfold get_orderbook. cbn [fst]. fold (orderbook_sub market).
    rewrite (subscribe_if_absent_id _ c Hsub), Hts. cbn [default id].
    rewrite decide_True by done.
    unfold wait_for_orderbook_update. fold (orderbook_sub market).
    rewrite subscribe_if_absent_id by exact Hsub. reflexivity.
  - intros s. rewrite get_orderbook_result, Hbook. apply side_levels_empty_book.
Qed.

(** After a checksum mismatch the market is back where a market without
    data is: its timestamp reads 0, and the next [get_orderbook] sends
    nothing (the resubscription is recorded), waits with its timeout of 5
    and returns empty sides until a new snapshot arrives. *)
Theorem read_after_mismatch_waits_for_snapshot
    (market : string) (data : orderbook_data) (c c1 c' : client) (s : side) :
  apply_orderbook_data market data c = Ok c1 →
  computed_result (get_orderbook market c1).2 ≠ checksum data →
  _handle_orderbook_message (orderbook_message market data) c = Ok c' →
  (get_orderbook_timestamp market c').2 = 0 ∧
  _trace (get_orderbook market c').1 = _trace c' ++ [Waited market 5] ∧
  (get_orderbook market c').2 s = [].
Proof.
  intros Happly Hdiff.
  unfold _handle_orderbook_message, orderbook_message. cbn [msg_market msg_data].
  rewrite Happly. cbn [mbind result_bind]. intros [= <-].
  unfold verify_checksum.
  destruct (get_orderbook market c1) as [c2 ob]. cbn [snd] in Hdiff.
  rewrite decide_True by done.
  destruct (on_mismatch_fields market c2) as (Hbook & Hts & Hsub).
  destruct (get_orderbook_subscribed_no_data market _ Hsub Hbook Hts) as [Htrace Hempty].
  split; [|by split].
  unfold get_orderbook_timestamp. cbn [snd]. by rewrite Hts.
Qed.

(** The theorem on a new client that receives a snapshot with a wrong
    checksum. *)
Lemma read_after_mismatch_waits_for_snapshot_witness :
  ∃ c',
    _handle_orderbook_message (orderbook_message "BTC-PERP" partial_bad_checksum)
                              (init "" "") = Ok c' ∧
    (get_orderbook_timestamp "BTC-PERP" c').2 = 0 ∧
    _trace (get_orderbook "BTC-PERP" c').1 = _trace c' ++ [Waited "BTC-PERP" 5] ∧
    (get_orderbook "BTC-PERP" c').2 Bids = [].
Proof.
  eexists.
  assert (_handle_orderbook_message (orderbook_message "BTC-PERP" partial_bad_checksum)
                                    (init "" "") = Ok _) as H by (vm_compute; reflexivity).
  split; [exact H|].
  eapply (read_after_mismatch_waits_for_snapshot "BTC-PERP" partial_bad_checksum
            (init "" "") _ _ Bids); [vm_compute; reflexivity|vm_compute; lia|exact H].
Defined.

Lemma unsubscribe_frames_app tr1 tr2 :
  unsubscribe_frames (tr1 ++ tr2) = unsubscribe_frames tr1 ++ unsubscribe_frames tr2.
Proof. apply omap_app. Qed.

Lemma subscribe_if_absent_unsubscribe_frames sub c :
  unsubscribe_frames (_trace (subscribe_if_absent sub c)) = unsubscribe_frames (_trace c).
Proof.
  unfold subscribe_if_absent. case_decide; [done|].
  unfold _subscribe, send_json. client_simpl.
  rewrite unsubscribe_frames_app. cbn. by rewrite app_nil_r.
Qed.

Lemma get_orderbook_after_apply market data c c1 :
  apply_orderbook_data market data c = Ok c1 →
  _orderbooks (get_orderbook market c1).1 !! market = _orderbooks c1 !! market ∧
  _orderbook_timestamps (get_orderbook market c1).1 !! market = Some (time data) ∧
  unsubscribe_frames (_trace (get_orderbook market c1).1) = unsubscribe_frames (_trace c) ∧
  orderbook_sub market ∈ _subscriptions (get_orderbook market c1).1.
Proof.
  intros Happly.
  destruct (apply_orderbook_data_book market data c c1 Happly) as [b Hb].
  assert (_orderbook_timestamps c1 !! market = Some (time data)) as Hts.
  { revert Happly. unfold apply_orderbook_data.
    destruct (apply_side market data Bids _) as [c0|]; cbn [mbind result_bind]; [|done].
    unfold apply_side.
    destruct (apply_levels _ _); cbn [mbind result_bind]; [|done].
    intros [= <-]. client_simpl. apply lookup_insert_eq. }
  assert (_trace c1 = _trace c) as Htr
    by (by rewrite (apply_orderbook_data_shape _ _ _ _ Happly)).
  unfold get_orderbook. cbn [fst]. fold (orderbook_sub market).
  set (c2 := subscribe_if_absent (orderbook_sub market) c1).
  assert (orderbook_sub market ∈ _subscriptions c2) as Hsub
    by apply subscribe_if_absent_elem.
  assert (_orderbooks c2 = _orderbooks c1) as Hob2
    by apply subscribe_if_absent_orderbooks.
  assert (_orderbook_timestamps c2 = _orderbook_timestamps c1) as Hts2.
  { subst c2. unfold subscribe_if_absent. by case_decide. }
  assert (unsubscribe_frames (_trace c2) = unsubscribe_frames (_trace c)) as Hu2.
  { subst c2. by rewrite subscribe_if_absent_unsubscribe_frames, Htr. }
  rewrite Hts2, Hts. cbn [default id].
  case_decide as Hzero.
  - unfold wait_for_orderbook_update. fold (orderbook_sub market).
    rewrite subscribe_if_absent_id by exact Hsub.
    unfold event_wait. client_simpl. rewrite Hob2, Hb. cbn [default id].
    rewrite !lookup_insert_eq, unsubscribe_frames_app, Hu2. cbn.
    by rewrite app_nil_r.
  - client_simpl. rewrite Hob2, Hb. cbn [default id].
    by rewrite !lookup_insert_eq.
Qed.

(** When the checksum matches, the handler keeps the book it has just
    built and the message's time, leaves the market's update event unset
    after the pulse, has the market's subscription recorded, and sends no
    unsubscribe frame. *)
Theorem matching_checksum_keeps_book
    (market : string) (data : orderbook_data) (c c1 : client) :
  apply_orderbook_data market data c = Ok c1 →
  computed_result (get_orderbook market c1).2 = checksum data →
  ∃ c' b,
    _handle_orderbook_message (orderbook_message market data) c = Ok c' ∧
    _orderbooks c1 !! market = Some b ∧
    _orderbooks c' !! market = Some b ∧
    _orderbook_timestamps c' !! market = Some (time data) ∧
    _orderbook_update_events c' !! market = Some false ∧
    orderbook_sub market ∈ _subscriptions c' ∧
    unsubscribe_frames (_trace c') = unsubscribe_frames (_trace c).
Proof.
  intros Happly Hsame.
  destruct (apply_orderbook_data_book market data c c1 Happly) as [b Hb].
  destruct (get_orderbook_after_apply market data c c1 Happly) as (Hob & Hts & Hu & Hsub).
  unfold _handle_orderbook_message, orderbook_message. cbn [msg_market msg_data].
  rewrite Happly. cbn [mbind result_bind].
  eexists. exists b. split; [reflexivity|].
  unfold verify_checksum.
  destruct (get_orderbook market c1) as [c2 ob]. cbn [fst snd] in *.
  rewrite decide_False by (intros Hne; by apply Hne).
  unfold event_pulse. client_simpl. rewrite lookup_insert_eq, Hob.
  by repeat split.
Qed.

(** The theorem on the snapshot of the scenario of section 8. *)
Lemma matching_checksum_keeps_book_witness :
  ∃ c' b,
    _handle_orderbook_message (orderbook_message "BTC-PERP" scenario_partial)
                              (init "" "") = Ok c' ∧
    _orderbooks c' !! "BTC-PERP" = Some b ∧
    _orderbook_timestamps c' !! "BTC-PERP" = Some (time scenario_partial) ∧
    _orderbook_update_events c' !! "BTC-PERP" = Some false ∧
    orderbook_sub "BTC-PERP" ∈ _subscriptions c' ∧
    unsubscribe_frames (_trace c') = unsubscribe_frames (_trace (init "" "")).
Proof.
  assert (apply_orderbook_data "BTC-PERP" scenario_partial (init "" "") = Ok _) as H
    by (vm_compute; reflexivity).
  destruct (matching_checksum_keeps_book "BTC-PERP" scenario_partial _ _ H
              ltac:(vm_compute; reflexivity))
    as (c' & b & Hh & _ & Hrest).
  exists c', b. split; [exact Hh|exact Hrest].
Defined.

(** *** The range of the computed checksum *)








(** *** What [get_trades] returns *)

(** After any number of trades messages for a market, [get_trades] returns
    the buffer it had followed by the new payloads in arrival order, cut
    from the left to the newest 10 000. *)
Theorem get_trades_returns_newest
    (market : string) (ds : list payload) (c : client) :
  (length (default [] (_trades c !! market)) ≤ maxlen)%nat →
  ∃ c', run (trades_message market <$> ds) c = Ok c' ∧
        (get_trades market c').2
        = drop (length (default [] (_trades c !! market) ++ ds) - Z.to_nat 10000)
               (default [] (_trades c !! market) ++ ds) ∧
        (length (get_trades market c').2 ≤ Z.to_nat 10000)%nat.
Proof.
  intros Hlen.
  assert (∀ c0 : client, (get_trades market c0).2 = default [] (_trades c0 !! market))
    as Hget.
  { intros c0. unfold get_trades. cbn [snd].
    replace (_trades (subscribe_if_absent (Subscription "trades" (Some market)) c0))
      with (_trades c0); [done|].
    unfold subscribe_if_absent. by case_decide. }
  assert (∃ c', run (trades_message market <$> ds) c = Ok c' ∧
                default [] (_trades c' !! market)
                = fold_left deque_append ds (default [] (_trades c !! market)))
    as (c' & Hrun & Hbuf).
  { destruct ds as [|d ds]; [by exists c|].
    destruct (run_trades_messages market (d :: ds) c) as (c' & Hrun & Hlook); [done|].
    exists c'. split; [exact Hrun|]. by rewrite Hlook. }
  exists c'. split; [exact Hrun|]. rewrite Hget, Hbuf.
  rewrite deque_append_all by exact Hlen. split; [reflexivity|].
  rewrite length_drop. fold maxlen. lia.
Qed.

(** The theorem on three trades pushed into a new client. *)
Lemma get_trades_returns_newest_witness :
  ∃ c', run (trades_message "BTC-PERP" <$> numbered_trades 3) (init "" "") = Ok c' ∧
        (get_trades "BTC-PERP" c').2
        = drop (length (default [] (_trades (init "" "") !! "BTC-PERP")
                        ++ numbered_trades 3) - Z.to_nat 10000)
               (default [] (_trades (init "" "") !! "BTC-PERP") ++ numbered_trades 3) ∧
        (length (get_trades "BTC-PERP" c').2 ≤ Z.to_nat 10000)%nat.
Proof.
  apply (get_trades_returns_newest "BTC-PERP" (numbered_trades 3) (init "" "")).
  vm_compute. lia.
Defined.

(** ** The REST client *)

Section rest_properties.
Context (prepare : request → prepared) (server : request → response).


(** *** [modify_order] *)

(** [modify_order] goes through exactly when one of the two ids is given
    and price and size are not both given; otherwise it raises an
    assertion error and sends nothing. A call that goes through posts to
    the path of the id that was given, and its body holds a price or a
    size only if that argument was given, so never both; a call with
    neither price nor size is let through with neither. *)
Theorem modify_order_checks_and_body
    (ts : Z) (existing_order_id existing_client_order_id : option string)
    (price size : option Z) (client_order_id : option string) (cl : rest_client) :
  let call := modify_order prepare server ts existing_order_id
                existing_client_order_id price size client_order_id cl in
  let one_id := (existing_order_id = None ∧ existing_client_order_id ≠ None) ∨
                (existing_order_id ≠ None ∧ existing_client_order_id = None) in
  let not_both := price = None ∨ size = None in
  (¬ (one_id ∧ not_both) → ∃ msg, call = (cl, Raises (AssertionError msg))) ∧
  (one_id ∧ not_both →
   ∃ path body,
     call = _post prepare server ts path (Some body) cl ∧
     path = match existing_order_id with
            | Some id => "orders/" +:+ id +:+ "/modify"
            | None => "orders/by_client_id/"
                      +:+ default "None" existing_client_order_id +:+ "/modify"
            end ∧
     assoc "price" body = JNum <$> price ∧
     assoc "size" body = JNum <$> size ∧
     assoc "clientId" body = JStr <$> client_order_id ∧
     (assoc "price" body = None ∨ assoc "size" body = None)).
Proof.
  intros call one_id not_both. subst call one_id not_both. unfold modify_order.
  split.
  - intros Hbad.
    destruct existing_order_id, existing_client_order_id, price, size;
      cbn; try (by eexists);
      exfalso; apply Hbad; split; (by left; split) || (by right; split) ||
                                  (by left) || (by right).
  - intros [Hone Hnot].
    destruct existing_order_id, existing_client_order_id;
      try (exfalso; destruct Hone as [[? ?]|[? ?]]; done);
      destruct price, size; try (exfalso; destruct Hnot; done);
      destruct client_order_id; cbn;
      (do 2 eexists; split; [reflexivity|]; split; [reflexivity|];
       repeat split; (by left) || (by right)).
Qed.

End rest_properties.

(** The theorem on a change of price by order id. *)
Lemma modify_order_checks_and_body_witness :
  ∃ path body,
    modify_order plain_prepare (answering (JDict [("success", JBool true);
                                                  ("result", JNull)]))
                 1 (Some "42") None (Some 100) None None sample_rest_client
    = _post plain_prepare (answering (JDict [("success", JBool true);
                                             ("result", JNull)]))
            1 path (Some body) sample_rest_client ∧
    path = "orders/42/modify" ∧
    assoc "price" body = Some (JNum 100) ∧
    assoc "size" body = None ∧
    assoc "clientId" body = None ∧
    (assoc "price" body = None ∨ assoc "size" body = None).
Proof.
  apply (proj2 (modify_order_checks_and_body _ _ 1 (Some "42") None (Some 100) None
                  None sample_rest_client)).
  split; [right; by split|by right].
Defined.



(** *** [place_conditional_order] *)

(** The three assertions of [place_conditional_order], taken together. *)
Lemma place_conditional_order_assertions
    (type : string) (trigger_price trail_value : option Z) :
  (_ ← py_assert (bool_decide (type ∈ ["stop"; "take_profit"; "trailing_stop"])) "";
   _ ← py_assert (negb (bool_decide (type ∈ ["stop"; "take_profit"]))
                  || negb (bool_decide (trigger_price = None)))
                 "Need trigger prices for stop losses and take profits";
   py_assert (negb (str_in type "trailing_stop")
              || (bool_decide (trigger_price = None)
                  && negb (bool_decide (trail_value = None))))
             "Trailing stops need a trail value and cannot take a trigger price")
  = if bool_decide ((type = "take_profit" ∧ trigger_price ≠ None) ∨
                    (type = "trailing_stop" ∧ trigger_price = None ∧ trail_value ≠ None))
    then Returns ()
    else Raises (AssertionError
           (if bool_decide (type ∈ ["stop"; "take_profit"; "trailing_stop"])
            then if bool_decide (type ∈ ["stop"; "take_profit"])
                 then if bool_decide (trigger_price = None)
                      then "Need trigger prices for stop losses and take profits"
                      else "Trailing stops need a trail value and cannot take a trigger price"
                 else "Trailing stops need a trail value and cannot take a trigger price"
            else "")).
Proof.
  destruct (decide (type ∈ ["stop"; "take_profit"; "trailing_stop"])) as [Hin|Hout].
  - rewrite (bool_decide_eq_true_2 _ Hin).
    assert (type = "stop" ∨ type = "take_profit" ∨ type = "trailing_stop") as Hcases.
    { rewrite !elem_of_cons in Hin. destruct Hin as [?|[?|[?|Hnil]]]; auto.
      by apply elem_of_nil in Hnil. }
    destruct Hcases as [-> | [-> | ->]];
      destruct trigger_price, trail_value; vm_compute; reflexivity.
  - rewrite (bool_decide_eq_false_2 _ Hout). cbn [py_assert mbind rest_result_bind].
    rewrite bool_decide_eq_false_2; [done|].
    intros [[-> _] | [-> _]]; apply Hout; set_solver.
Qed.

(** A conditional order of type [stop], the default, is refused whatever
    its other arguments: [stop] passes the substring test against
    [trailing_stop], so the trailing-stop assertion asks for no trigger
    price while the stop assertion asks for one. Nothing is sent. *)
Theorem stop_order_is_always_refused
    (prepare : request → prepared) (server : request → response)
    (ts : Z) (market side : string) (size : Z) (limit_price : option Z)
    (reduce_only cancel : bool) (trigger_price trail_value : option Z)
    (cl : rest_client) :
  str_in "stop" "trailing_stop" = true ∧
  ∃ msg,
    place_conditional_order prepare server ts market side size "stop" limit_price
      reduce_only cancel trigger_price trail_value cl
    = (cl, Raises (AssertionError msg)) ∧
    msg = if bool_decide (trigger_price = None)
          then "Need trigger prices for stop losses and take profits"
          else "Trailing stops need a trail value and cannot take a trigger price".
Proof.
  split; [reflexivity|]. unfold place_conditional_order.
  rewrite place_conditional_order_assertions.
  rewrite bool_decide_eq_false_2 by (by intros [[? _] | [? _]]).
  eexists. split; [reflexivity|]. by destruct trigger_price.
Qed.

(** [place_conditional_order] goes through exactly for a take-profit with
    a trigger price and for a trailing stop with a trail value and no
    trigger price. The order it then posts always has type [stop], and
    its body has no entry for the trail value: the body is the same
    whatever the type and the trail value were. *)
Theorem place_conditional_order_posts_type_stop
    (prepare : request → prepared) (server : request → response)
    (ts : Z) (market side : string) (size : Z) (type : string)
    (limit_price : option Z) (reduce_only cancel : bool)
    (trigger_price trail_value : option Z) (cl : rest_client) :
  let call := place_conditional_order prepare server ts market side size type
                limit_price reduce_only cancel trigger_price trail_value cl in
  let accepted := (type = "take_profit" ∧ trigger_price ≠ None) ∨
                  (type = "trailing_stop" ∧ trigger_price = None ∧ trail_value ≠ None) in
  (¬ accepted → ∃ msg, call = (cl, Raises (AssertionError msg))) ∧
  (accepted →
   call = _post prepare server ts "conditional_orders"
            (Some [("market", JStr market); ("side", JStr side);
                   ("triggerPrice", opt_num trigger_price); ("size", JNum size);
                   ("reduceOnly", JBool reduce_only); ("type", JStr "stop");
                   ("cancelLimitOnTrigger", JBool cancel);
                   ("orderPrice", opt_num limit_price)]) cl).
Proof.
  intros call accepted. subst call accepted. unfold place_conditional_order.
  rewrite place_conditional_order_assertions. split.
  - intros Hno. rewrite bool_decide_eq_false_2 by exact Hno. by eexists.
  - intros Hyes. by rewrite bool_decide_eq_true_2 by exact Hyes.
Qed.

(** The theorem on a trailing stop with trail value 5. *)
Lemma place_conditional_order_posts_type_stop_witness :
  place_conditional_order plain_prepare (answering JNull) 1 "BTC-PERP" "sell" 2
    "trailing_stop" None false true None (Some 5) sample_rest_client
  = _post plain_prepare (answering JNull) 1 "conditional_orders"
      (Some [("market", JStr "BTC-PERP"); ("side", JStr "sell");
             ("triggerPrice", opt_num None); ("size", JNum 2);
             ("reduceOnly", JBool false); ("type", JStr "stop");
             ("cancelLimitOnTrigger", JBool true);
             ("orderPrice", opt_num None)]) sample_rest_client.
Proof.
  apply (proj2 (place_conditional_order_posts_type_stop plain_prepare (answering JNull)
                  1 "BTC-PERP" "sell" 2 "trailing_stop" None false true None (Some 5)
                  sample_rest_client)).
  right. by repeat split.
Defined.

(** *** [get_position] *)

Lemma is_str_or_not (v : json) (name : string) : v = JStr name ∨ v ≠ JStr name.
Proof.
  destruct v as [| | |s| |]; try (by right).
  destruct (decide (s = name)) as [->|Hne]; [by left|].
  right. by intros [= ?].
Qed.

Lemma first_position_match name x rest :
  future_is name x → first_position name (x :: rest) = Returns (Some x).
Proof.
  unfold future_is. intros Hx. cbn [first_position]. rewrite Hx.
  cbn [mbind rest_result_bind]. by rewrite decide_True.
Qed.

Lemma first_position_skip name x rest :
  future_is_not name x → first_position name (x :: rest) = first_position name rest.
Proof.
  intros (v & Hx & Hne). cbn [first_position]. rewrite Hx.
  cbn [mbind rest_result_bind]. destruct v as [| | |s| |]; try done.
  rewrite decide_False; [done|]. by intros ->.
Qed.

Lemma first_position_raise name x rest e :
  subscript x "future" = Raises e → first_position name (x :: rest) = Raises e.
Proof. intros Hx. cbn [first_position]. by rewrite Hx. Qed.

Lemma future_cases name x :
  future_is name x ∨ future_is_not name x ∨ ∃ e, subscript x "future" = Raises e.
Proof.
  unfold future_is, future_is_not.
  destruct (subscript x "future") as [v|e]; [|right; right; by exists e].
  destruct (is_str_or_not v name) as [->|Hne]; [by left|].
  right. left. by exists v.
Qed.

Lemma future_is_excludes name x : future_is name x → ¬ future_is_not name x.
Proof. unfold future_is. intros Hx (v & Hv & Hne). congruence. Qed.

(** The search of [get_position] returns the first item whose [future] is
    the name, having inspected only the items before it: what comes after
    the match, well-formed or not, plays no part. It returns [None]
    exactly when every item has a [future] and none is the name. *)
Theorem first_position_finds_first_match (name : string) (positions : list json) :
  (∀ p, first_position name positions = Returns (Some p) ↔
        ∃ before after,
          positions = before ++ p :: after ∧
          Forall (future_is_not name) before ∧
          future_is name p) ∧
  (first_position name positions = Returns None ↔
   Forall (future_is_not name) positions).
Proof.
  induction positions as [|x rest [IHsome IHnone]].
  - split.
    + intros p. split; [done|]. intros (before & after & Heq & _).
      by destruct before.
    + split; [constructor|done].
  - destruct (future_cases name x) as [Hx | [Hx | [e Hx]]].
    + rewrite (first_position_match name x rest Hx). split.
      * intros p. split.
        -- intros [= <-]. exists [], rest. split; [done|]. split; [constructor|done].
        -- intros (before & after & Heq & Hbefore & Hp).
           destruct before as [|y before]; cbn [app] in Heq.
           ++ by injection Heq as -> ->.
           ++ injection Heq as -> ->. apply Forall_cons in Hbefore as [Hy _].
              by apply future_is_excludes in Hx.
      * split; [done|]. intros [Hy _]%Forall_cons.
        by apply future_is_excludes in Hx.
    + rewrite (first_position_skip name x rest Hx). split.
      * intros p. rewrite IHsome. split.
        -- intros (before & after & -> & Hbefore & Hp).
           exists (x :: before), after. split; [done|]. split; [|done].
           by constructor.
        -- intros (before & after & Heq & Hbefore & Hp).
           destruct before as [|y before]; cbn [app] in Heq.
           ++ injection Heq as -> ->. by apply future_is_excludes in Hp.
           ++ injection Heq as -> ->. apply Forall_cons in Hbefore as [_ Hbefore].
              by exists before, after.
      * rewrite IHnone. split; [by constructor|by intros [_ ?]%Forall_cons].
    + rewrite (first_position_raise name x rest e Hx). split.
      * intros p. split; [done|]. intros (before & after & Heq & Hbefore & Hp).
        destruct before as [|y before]; cbn [app] in Heq.
        -- injection Heq as -> ->. unfold future_is in Hp. congruence.
        -- injection Heq as -> ->. apply Forall_cons in Hbefore as [(v & Hv & _) _].
           congruence.
      * split; [done|]. intros [(v & Hv & _) _]%Forall_cons. congruence.
Qed.

(** When the server answers the positions request with a list, and the
    client has a key and a secret, [get_position] sends that one request
    and returns
    the first position of the name, or [None] when every position names
    another future. *)
Theorem get_position_returns_first_match
    (prepare : request → prepared) (server : request → response)
    (ts : Z) (name : string) (show_avg_price : bool) (cl : rest_client)
    (key secret : string) (positions : list json) :
  rest_api_key cl = Some key →
  rest_api_secret cl = Some secret →
  (∀ req, _process_response (server req) = Returns (JList positions)) →
  length (rest_sent (get_position prepare server ts name show_avg_price cl).1)
  = S (length (rest_sent cl)) ∧
  (∀ p, (get_position prepare server ts name show_avg_price cl).2 = Returns (Some p) ↔
        ∃ before after,
          positions = before ++ p :: after ∧
          Forall (future_is_not name) before ∧
          future_is name p) ∧
  ((get_position prepare server ts name show_avg_price cl).2 = Returns None ↔
   Forall (future_is_not name) positions).
Proof.
  intros _ Hsecret Hserver.
  unfold get_position, get_positions, _get, _request, _sign_request.
  rewrite Hsecret, Hserver. cbn [fst snd rest_sent mbind rest_result_bind iterate].
  split; [rewrite length_app; cbn [length]; lia|].
  apply first_position_finds_first_match.
Qed.

(** The theorem on four positions, the second and third of BTC-PERP and
    the fourth not a dict. *)
Lemma get_position_returns_first_match_witness :
  (get_position plain_prepare
     (answering (JDict [("success", JBool true); ("result", sample_positions)]))
     1 "BTC-PERP" false sample_rest_client).2
  = Returns (Some (JDict [("future", JStr "BTC-PERP"); ("size", JNum 2)])).
Proof.
  apply (proj1 (proj2 (get_position_returns_first_match plain_prepare
                         (answering (JDict [("success", JBool true);
                                            ("result", sample_positions)]))
                         1 "BTC-PERP" false sample_rest_client "key" "s3cr3t"
                         [JDict [("future", JStr "ETH-PERP"); ("size", JNum 1)];
                          JDict [("future", JStr "BTC-PERP"); ("size", JNum 2)];
                          JDict [("future", JStr "BTC-PERP"); ("size", JNum 3)];
                          JNum 7]
                         eq_refl eq_refl (λ _, eq_refl)))).
  exists [JDict [("future", JStr "ETH-PERP"); ("size", JNum 1)]],
         [JDict [("future", JStr "BTC-PERP"); ("size", JNum 3)]; JNum 7].
  split; [reflexivity|]. split; [|reflexivity].
  constructor; [|constructor].
  exists (JStr "ETH-PERP"). split; [reflexivity|discriminate].
Defined.
